(** * WordGrinder display backends: SDL (src/c/arch/sdl/dpy.c) and GLFW
      (src/c/arch/glfw/main.c)

    A shallow embedding of the two backends' key pump, key-name decoder,
    attribute register and cell buffer, followed by the properties of the
    display-backend contract checked against them. *)

From Stdlib Require Import ZArith QArith Lia Lqa Bool String Ascii DecimalString.
From stdpp Require Import base option list.

Local Open Scope Z_scope.

(** ** C integers

    [int], [uni_t] (a typedef of [int] in globals.h) and SDL's [Sint32] are
    32-bit two's complement values, carried as [Z]; the conversions C performs
    are written out.  [Z.land]/[Z.lor] on [Z] agree with C's [&]/[|] on
    two's complement operands. *)

Definition sint32 (z : Z) : Z := (z + 2 ^ 31) mod 2 ^ 32 - 2 ^ 31.
Definition uint32 (z : Z) : Z := z mod 2 ^ 32.
Definition uint8 (z : Z) : Z := z mod 2 ^ 8.

(** Unary minus on an [int]. *)
Definition neg32 (z : Z) : Z := sint32 (- z).

(** A C scalar used as a condition. *)
Definition truthy (z : Z) : bool := negb (z =? 0).

Definition INT_MAX : Z := 0x7fffffff.

(** Conversion of a [double] to [int]: the fractional part is discarded. *)
Definition trunc_int (x : Q) : Z := Z.quot (Qnum x) (Zpos (Qden x)).

(** [toupper] of <ctype.h> in the "C" locale. *)
Definition toupper (c : Z) : Z :=
  if (97 <=? c) && (c <=? 122) then c - 32 else c.

(** ** printf conversions used by the key-name decoders *)

(** [%d] on an [int]. *)
Definition fmt_d (v : Z) : string := NilZero.string_of_int (Z.to_int v).

(** [%c] as the last conversion of a format: the argument is converted to
    [unsigned char]; a NUL byte ends the C string there. *)
Definition fmt_c (v : Z) : string :=
  let b := uint8 v in
  if b =? 0 then EmptyString else String (ascii_of_N (Z.to_N b)) EmptyString.

(** [%s] with the argument [(cond) ? s : ""]. *)
Definition fmt_opt (cond : bool) (s : string) : string :=
  if cond then s else EmptyString.

(** * The SDL backend *)

Module Sdl.

Definition VKM_SHIFT : Z := 0x10000.
Definition VKM_CTRL : Z := 0x20000.
Definition VKM_CTRLASCII : Z := 0x40000.
Definition SDLK_RESIZE : Z := 0x80000.
Definition SDLK_TIMEOUT : Z := 0x80001.

(** *** Constants of SDL2 (SDL_keycode.h, SDL_scancode.h)

    A key without a character has the keycode [scancode | 1<<30]. *)

Definition KMOD_SHIFT : Z := 0x0003. (* KMOD_LSHIFT | KMOD_RSHIFT *)
Definition KMOD_CTRL : Z := 0x00c0.  (* KMOD_LCTRL | KMOD_RCTRL *)

Definition SDLK_SCANCODE_MASK : Z := 0x40000000.
Definition of_scancode (sc : Z) : Z := Z.lor sc SDLK_SCANCODE_MASK.

Definition SDLK_BACKSPACE : Z := 8.
Definition SDLK_TAB : Z := 9.
Definition SDLK_RETURN : Z := 13.
Definition SDLK_ESCAPE : Z := 27.
Definition SDLK_DELETE : Z := 127.
Definition SDLK_F1 : Z := of_scancode 58.
Definition SDLK_INSERT : Z := of_scancode 73.
Definition SDLK_HOME : Z := of_scancode 74.
Definition SDLK_PAGEUP : Z := of_scancode 75.
Definition SDLK_END : Z := of_scancode 77.
Definition SDLK_PAGEDOWN : Z := of_scancode 78.
Definition SDLK_RIGHT : Z := of_scancode 79.
Definition SDLK_LEFT : Z := of_scancode 80.
Definition SDLK_DOWN : Z := of_scancode 81.
Definition SDLK_UP : Z := of_scancode 82.
Definition SDLK_F24 : Z := of_scancode 115.

(** *** Events

    The fields of [SDL_Event] that [dpy_getchar] reads.  Every event type
    without a [case] of its own (window, mouse, key-up, ...) is [SDL_OTHER]. *)

Inductive SDL_Event : Type :=
| SDL_QUIT
| SDL_TEXTINPUT (text : list Byte.byte)
| SDL_KEYDOWN (sym : Z) (kmod : Z)
| SDL_OTHER (type : Z).

(** What the [switch] does with one event: [return key], or leave the
    [switch] and go round the loop again. *)
Inductive verdict : Type :=
| Return (key : Z)
| Break.

(** [e.key.keysym.mod & KMOD_CTRL] and [e.key.keysym.mod & KMOD_SHIFT]. *)
Definition ctrl_held (kmod : Z) : bool := truthy (Z.land kmod KMOD_CTRL).
Definition shift_held (kmod : Z) : bool := truthy (Z.land kmod KMOD_SHIFT).

(** [(key >= 0x20) && (key < 0x80)]. *)
Definition printable (key : Z) : bool := (0x20 <=? key) && (key <? 0x80).

(** The label [check_shift:] and the statements after it. *)
Definition check_shift (kmod key : Z) : verdict :=
  let key := if shift_held kmod then Z.lor key VKM_SHIFT else key in
  Return (neg32 key).

(** The body of [case SDL_KEYDOWN]. *)
Definition on_keydown (sym kmod : Z) : verdict :=
  let key := sym in
  if printable key then
    if ctrl_held kmod then
      let key := toupper key in
      if key =? 32 then
        check_shift kmod (neg32 (Z.lor VKM_CTRLASCII 0))
      else if (65 <=? key) && (key <=? 90) then
        check_shift kmod (Z.lor (Z.land key 0x1f) VKM_CTRLASCII)
      else Break
    else Break
  else
    let key := if ctrl_held kmod then Z.lor key VKM_CTRL else key in
    check_shift kmod key.

(** One reading of the clock at the top of the loop and what
    [SDL_WaitEventTimeout] then delivers: an event, or nothing (it returned
    0).  [ticks] is the [Uint32] that [SDL_GetTicks] returns.  The bound
    handed to the wait does not enter: the loop is run against any sequence
    of readings and deliveries. *)
Record tick : Type := Tick { ticks : Z; arrival : option SDL_Event }.

(** A turn of the loop in which neither text nor a key-down comes in. *)
Definition no_input (t : tick) : bool :=
  match arrival t with
  | None | Some SDL_QUIT | Some (SDL_OTHER _) => true
  | Some (SDL_TEXTINPUT _) | Some (SDL_KEYDOWN _ _) => false
  end.

Section Pump.

(** [readu8] of the repository's UTF-8 utilities decodes the first
    character of the event's text; it is not part of this backend. *)
Variable readu8 : list Byte.byte -> Z.

(** [switch (e.type)]. *)
Definition dispatch (e : SDL_Event) : verdict :=
  match e with
  | SDL_QUIT => Break
  | SDL_TEXTINPUT text =>
      let key := readu8 text in
      if negb (truthy key) then Break else Return key
  | SDL_KEYDOWN sym kmod => on_keydown sym kmod
  | SDL_OTHER _ => Break
  end.

(** The [for (;;)] loop, run against the readings and deliveries of
    [env]; [None] when [env] is used up and the call is still waiting.  The
    loop has no exit but its [return]s, so the [return SDLK_TIMEOUT;] that
    follows it in the source is never reached. *)
Fixpoint wait_loop (expiry_ms : Z) (env : list tick) : option Z :=
  match env with
  | [] => None
  | t :: env' =>
      let now_ms := sint32 (ticks t) in
      if expiry_ms <=? now_ms then Some 0
      else
        match arrival t with
        | None => wait_loop expiry_ms env'
        | Some e =>
            match dispatch e with
            | Return key => Some key
            | Break => wait_loop expiry_ms env'
            end
        end
  end.

(** [dpy_getchar(timeout)]; [start] is the first [SDL_GetTicks] reading.
    The [double] arithmetic is carried out on exact rationals and the
    conversion to [int] truncates toward zero: this is the code's value where
    [timeout * 1000.0] and the sum are exact in [double] and the result fits
    an [int]; with the timeout -1 the value is replaced by [INT_MAX]. *)
Definition dpy_getchar (timeout : Q) (start : Z) (env : list tick) : option Z :=
  let expiry_ms := trunc_int (inject_Z start + timeout * 1000)%Q in
  let expiry_ms := if Qeq_bool timeout (-1) then INT_MAX else expiry_ms in
  wait_loop expiry_ms env.

End Pump.

(** A stand-in for [readu8] on text whose first character is one byte
    (ASCII): enough to run the pump on examples. *)
Definition readu8_ascii (text : list Byte.byte) : Z :=
  match text with
  | b :: _ => Z.of_N (Byte.to_N b)
  | [] => 0
  end.

(** The [switch (key)] that picks the name template. *)
Definition template (key : Z) : option string :=
  if key =? SDLK_DOWN then Some "DOWN"%string
  else if key =? SDLK_UP then Some "UP"%string
  else if key =? SDLK_LEFT then Some "LEFT"%string
  else if key =? SDLK_RIGHT then Some "RIGHT"%string
  else if key =? SDLK_HOME then Some "HOME"%string
  else if key =? SDLK_END then Some "END"%string
  else if key =? SDLK_BACKSPACE then Some "BACKSPACE"%string
  else if key =? SDLK_DELETE then Some "DELETE"%string
  else if key =? SDLK_INSERT then Some "INSERT"%string
  else if key =? SDLK_PAGEUP then Some "PGDN"%string
  else if key =? SDLK_PAGEDOWN then Some "PGUP"%string
  else if key =? SDLK_TAB then Some "TAB"%string
  else if key =? SDLK_RETURN then Some "RETURN"%string
  else if key =? SDLK_ESCAPE then Some "ESCAPE"%string
  else None.

(** [dpy_getkeyname(k)].  The mask [0xfff0ffff] is an [unsigned] constant:
    [-k] is converted to [unsigned] for the [&] and the result back to
    [int]. *)
Definition dpy_getkeyname (k : Z) : string :=
  let nk := neg32 k in
  if nk =? SDLK_RESIZE then "KEY_RESIZE"
  else if nk =? SDLK_TIMEOUT then "KEY_TIMEOUT"
  else
    let mods := nk in
    let key := sint32 (Z.land (uint32 nk) 0xfff0ffff) in
    if truthy (Z.land mods VKM_CTRLASCII) then
      "KEY_" ++ fmt_opt (truthy (Z.land mods VKM_SHIFT)) "S" ++ "^" ++ fmt_c (key + 64)
    else
      match template key with
      | Some t =>
          "KEY_" ++ fmt_opt (truthy (Z.land mods VKM_SHIFT)) "S"
                 ++ fmt_opt (truthy (Z.land mods VKM_CTRL)) "C" ++ t
      | None =>
          if (SDLK_F1 <=? key) && (key <=? SDLK_F24) then
            "KEY_" ++ fmt_opt (truthy (Z.land mods VKM_SHIFT)) "S"
                   ++ fmt_opt (truthy (Z.land mods VKM_CTRL)) "C"
                   ++ "F" ++ fmt_d (key - SDLK_F1 + 1)
          else
            "KEY_UNKNOWN_" ++ fmt_d nk
      end.

(** The file's static variables other than the SDL handles. *)
Record display : Type := Display {
  screenwidth : Z;
  screenheight : Z;
  cursorx : Z;
  cursory : Z;
  cursor_shown : bool
}.

(** [dpy_setattr] has an empty body: this backend keeps no attribute. *)
Definition dpy_setattr (andmask ormask : Z) (d : display) : display := d.

Definition dpy_getscreensize (d : display) : Z * Z :=
  (screenwidth d, screenheight d).

Definition dpy_setcursor (x y : Z) (shown : bool) (d : display) : display :=
  Display (screenwidth d) (screenheight d) x y shown.

(** What the set-up calls of [dpy_start] report: the return code of
    [SDL_Init], whether [SDL_CreateWindow], [SDL_CreateRenderer] and
    [FC_LoadFont] gave a result, and the text of [SDL_GetError()]. *)
Record setup : Type := Setup {
  init_rc : Z;
  window_ok : bool;
  renderer_ok : bool;
  font_ok : bool;
  sdl_error : string
}.

(** How [dpy_start] ends: with the static variables set, or in [exit] with
    what was printed on [stderr]. *)
Inductive started : Type :=
| Running (d : display)
| Exited (status : Z) (stderr : string).

Definition newline : string := String (ascii_of_nat 10) EmptyString.

(** [fatal(s, ...)], its format already filled in: prints "error: ", the
    message and a newline, then calls [exit(1)]. *)
Definition fatal (msg : string) : started :=
  Exited 1 ("error: " ++ msg ++ newline).

Definition dpy_start (e : setup) : started :=
  if init_rc e <? 0 then
    fatal ("could not initialize sdl2: " ++ sdl_error e)
  else if negb (window_ok e) then
    fatal ("could not create window: " ++ sdl_error e)
  else if negb (renderer_ok e) then
    fatal ("could not create renderer: " ++ sdl_error e)
  else if negb (font_ok e) then
    fatal ("could not load font: " ++ sdl_error e)
  else
    Running (Display 80 25 0 0 false).

End Sdl.

(** * The GLFW backend *)

Module Glfw.

Definition VKM_SHIFT : Z := 0x10000.
Definition VKM_CTRL : Z := 0x20000.
Definition VKM_CTRLASCII : Z := 0x40000.
Definition VK_RESIZE : Z := 0x80000.
Definition VK_TIMEOUT : Z := 0x80001.
Definition VK_QUIT : Z := 0x80002.

(** [struct cell { uni_t c; uint8_t attr; }] *)
Record cell : Type := Cell { c : Z; attr : Z }.

(** The file's static variables.  [screen] is [None] for the null pointer
    and otherwise the array it points to. *)
Record display : Type := Display {
  currentAttr : Z;
  screenWidth : Z;
  screenHeight : Z;
  screen : option (list cell);
  cursorx : Z;
  cursory : Z;
  cursorShown : bool
}.

Definition with_screen (d : display) (scr : list cell) : display :=
  Display (currentAttr d) (screenWidth d) (screenHeight d) (Some scr)
          (cursorx d) (cursory d) (cursorShown d).

(** [p->c = ch; p->attr = a;] with [p = &screen[i]]: the assignment to the
    [uint8_t] field keeps the low eight bits of [a].  A store outside the
    array has no defined behaviour: [None]. *)
Definition store (scr : list cell) (i : Z) (ch a : Z) : option (list cell) :=
  if (0 <=? i) && (i <? Z.of_nat (length scr))
  then Some (<[Z.to_nat i := Cell ch (uint8 a)]> scr)
  else None.

Definition dpy_setattr (andmask ormask : Z) (d : display) : display :=
  let cur := Z.land (currentAttr d) andmask in
  let cur := Z.lor cur ormask in
  Display cur (screenWidth d) (screenHeight d) (screen d)
          (cursorx d) (cursory d) (cursorShown d).

Definition dpy_writechar (x y ch : Z) (d : display) : option display :=
  match screen d with
  | None => Some d
  | Some scr =>
      if (x <? 0) || (screenWidth d <=? x) then Some d
      else if (y <? 0) || (screenHeight d <=? y) then Some d
      else
        scr' ← store scr (x + y * screenWidth d) ch (currentAttr d);
        Some (with_screen d scr')
  end.

(** The inner loop of [dpy_cleararea]: [n] cells from [p] on, [p++] after
    each.  The counters [x] and [y] of the two loops are followed in [Z]: the
    loops are those of the code for [x2] and [y2] below [INT_MAX], where [x++]
    and [y++] cannot overflow. *)
Fixpoint clear_cells (a : Z) (n : nat) (p : Z) (scr : list cell) : option (list cell) :=
  match n with
  | O => Some scr
  | S n' => scr' ← store scr p 32 a; clear_cells a n' (p + 1) scr'
  end.

(** The outer loop: [n] rows from [y] on. *)
Fixpoint clear_rows (a w x1 x2 : Z) (n : nat) (y : Z) (scr : list cell) : option (list cell) :=
  match n with
  | O => Some scr
  | S n' =>
      scr' ← clear_cells a (Z.to_nat (x2 - x1 + 1)) (y * w + x1) scr;
      clear_rows a w x1 x2 n' (y + 1) scr'
  end.

Definition dpy_cleararea (x1 y1 x2 y2 : Z) (d : display) : option display :=
  match screen d with
  | None => Some d
  | Some scr =>
      scr' ← clear_rows (currentAttr d) (screenWidth d) x1 x2
                        (Z.to_nat (y2 - y1 + 1)) y1 scr;
      Some (with_screen d scr')
  end.

Definition dpy_clearscreen (d : display) : option display :=
  dpy_cleararea 0 0 (screenWidth d - 1) (screenHeight d - 1) d.

Definition dpy_getscreensize (d : display) : Z * Z :=
  (screenWidth d, screenHeight d).

Definition dpy_setcursor (x y : Z) (shown : bool) (d : display) : display :=
  Display (currentAttr d) (screenWidth d) (screenHeight d) (screen d) x y shown.

(** The cell at column [x], row [y]. *)
Definition cell_at (d : display) (x y : Z) : option cell :=
  scr ← screen d; scr !! Z.to_nat (x + y * screenWidth d).

(** The array behind [screen] has [screenWidth * screenHeight] cells. *)
Definition allocated (d : display) : Prop :=
  exists scr, screen d = Some scr
              /\ Z.of_nat (length scr) = screenWidth d * screenHeight d.







(** What GLFW hands to the two callbacks during a wait.  [key_cb] and
    [character_cb] print their arguments and change no variable. *)
Inductive glfw_event : Type :=
| KeyEvent (key scancode action mods : Z)
| CharEvent (codepoint : Z).

(** One turn of the loop: the value of [glfwGetTime()] if it is read, and
    the events processed by the wait that follows. *)
Record wake : Type := Wake { clock : Q; delivered : list glfw_event }.

(** The [for (;;)] loop of [dpy_getchar]; [None] when [env] is used up and
    the call is still waiting. *)
Fixpoint wait_loop (timeout endTime : Q) (env : list wake) : option Z :=
  match env with
  | [] => None
  | w :: env' =>
      if Qeq_bool timeout (-1) then wait_loop timeout endTime env'
      else
        let waitTime := (endTime - clock w)%Q in
        if negb (Qle_bool 0 waitTime) then Some (- VK_TIMEOUT)
        else wait_loop timeout endTime env'
  end.

(** [dpy_getchar(timeout)]; [start] is the first [glfwGetTime()] reading
    and [double] values are exact rationals: [endTime] is the code's value
    where the sum is exact in [double]. *)
Definition dpy_getchar (timeout : Q) (start : Q) (env : list wake) : option Z :=
  let endTime := (start + timeout)%Q in
  wait_loop timeout endTime env.

(** The decoder proper is compiled out ([#if 0]); what is left is the
    [return] in front of it. *)
Definition dpy_getkeyname (k : Z) : string := "KEY_TIMEOUT".

End Glfw.

(** * Properties *)

(** ** Integer conversions *)

Lemma sint32_id (z : Z) : - 2 ^ 31 <= z < 2 ^ 31 -> sint32 z = z.
Proof. intros Hz. unfold sint32. rewrite Z.mod_small; lia. Qed.

Lemma neg32_id (z : Z) : - 2 ^ 31 < z <= 2 ^ 31 -> neg32 z = - z.
Proof. intros Hz. apply sint32_id. lia. Qed.

Lemma truthy_true (z : Z) : truthy z = true <-> z <> 0.
Proof. unfold truthy. destruct (Z.eqb_spec z 0); simpl; split; congruence. Qed.

Lemma truthy_false (z : Z) : truthy z = false <-> z = 0.
Proof. unfold truthy. destruct (Z.eqb_spec z 0); simpl; split; congruence. Qed.

Lemma lor_below (a b n : Z) :
  0 <= a < 2 ^ n -> 0 <= b < 2 ^ n -> 0 <= Z.lor a b < 2 ^ n.
Proof.
  intros Ha Hb.
  assert (Hnn : 0 <= Z.lor a b) by (apply Z.lor_nonneg; lia).
  split; [exact Hnn|].
  destruct (Z.eq_dec (Z.lor a b) 0) as [E|NE]; [rewrite E; lia|].
  assert (Hn : 0 < n).
  { destruct (Z.lt_trichotomy n 0) as [L|[L|L]]; [|subst n|exact L].
    - rewrite Z.pow_neg_r in Ha by exact L. lia.
    - assert (a = 0) by lia. assert (b = 0) by lia. subst. now elim NE. }
  apply Z.log2_lt_pow2; [lia|].
  rewrite Z.log2_lor by lia.
  apply Z.max_lub_lt.
  - destruct (Z.eq_dec a 0) as [->|]; [exact Hn|apply Z.log2_lt_pow2; lia].
  - destruct (Z.eq_dec b 0) as [->|]; [exact Hn|apply Z.log2_lt_pow2; lia].
Qed.

Lemma lor_pos_l (a b : Z) : 0 < a -> 0 <= b -> 0 < Z.lor a b.
Proof.
  intros Ha Hb.
  assert (0 <= Z.lor a b) by (apply Z.lor_nonneg; lia).
  assert (Z.lor a b <> 0) by (rewrite Z.lor_eq_0_iff; lia).
  lia.
Qed.

(** ** Key-down translation in the SDL backend *)

Lemma land_letter (k : Z) : 65 <= k <= 90 -> Z.land k 0x1f = k - 64.
Proof.
  intros Hk. change 0x1f with (Z.ones 5). rewrite Z.land_ones by lia.
  symmetry. apply (Z.mod_unique_pos k (2 ^ 5) 2 (k - 64)); lia.
Qed.

Lemma on_keydown_unctrl (sym kmod : Z) :
  Sdl.printable sym = true -> Sdl.ctrl_held kmod = false ->
  Sdl.on_keydown sym kmod = Sdl.Break.
Proof. intros Hp Hc. unfold Sdl.on_keydown. now rewrite Hp, Hc. Qed.

Lemma on_keydown_plain (sym kmod : Z) :
  Sdl.printable sym = false -> 0 < sym < 2 ^ 31 ->
  let magnitude :=
    Z.lor (Z.lor sym (if Sdl.ctrl_held kmod then Sdl.VKM_CTRL else 0))
          (if Sdl.shift_held kmod then Sdl.VKM_SHIFT else 0) in
  Sdl.on_keydown sym kmod = Sdl.Return (- magnitude) /\ - magnitude < 0.
Proof.
  intros Hp Hs magnitude.
  assert (Hc : 0 <= (if Sdl.ctrl_held kmod then Sdl.VKM_CTRL else 0) < 2 ^ 31)
    by (destruct (Sdl.ctrl_held kmod); unfold Sdl.VKM_CTRL; lia).
  assert (Hh : 0 <= (if Sdl.shift_held kmod then Sdl.VKM_SHIFT else 0) < 2 ^ 31)
    by (destruct (Sdl.shift_held kmod); unfold Sdl.VKM_SHIFT; lia).
  assert (H1 : 0 <= Z.lor sym (if Sdl.ctrl_held kmod then Sdl.VKM_CTRL else 0) < 2 ^ 31)
    by (apply lor_below; lia).
  assert (H2 : 0 <= magnitude < 2 ^ 31) by (apply lor_below; lia).
  assert (H3 : 0 < magnitude).
  { apply lor_pos_l; [apply lor_pos_l|]; lia. }
  split; [|lia].
  unfold Sdl.on_keydown, Sdl.check_shift. rewrite Hp.
  rewrite <- (neg32_id magnitude) by lia. subst magnitude.
  destruct (Sdl.ctrl_held kmod), (Sdl.shift_held kmod);
    now rewrite ?Z.lor_0_r.
Qed.

Lemma on_keydown_ctrl_letter (sym kmod : Z) :
  Sdl.printable sym = true -> Sdl.ctrl_held kmod = true ->
  65 <= toupper sym <= 90 ->
  let magnitude :=
    Z.lor (Z.lor (toupper sym - 64) Sdl.VKM_CTRLASCII)
          (if Sdl.shift_held kmod then Sdl.VKM_SHIFT else 0) in
  Sdl.on_keydown sym kmod = Sdl.Return (- magnitude) /\ - magnitude < 0.
Proof.
  intros Hp Hc Hl magnitude.
  assert (Hh : 0 <= (if Sdl.shift_held kmod then Sdl.VKM_SHIFT else 0) < 2 ^ 31)
    by (destruct (Sdl.shift_held kmod); unfold Sdl.VKM_SHIFT; lia).
  assert (H1 : 0 <= Z.lor (toupper sym - 64) Sdl.VKM_CTRLASCII < 2 ^ 31)
    by (apply lor_below; unfold Sdl.VKM_CTRLASCII; lia).
  assert (H2 : 0 <= magnitude < 2 ^ 31) by (apply lor_below; lia).
  assert (H3 : 0 < magnitude).
  { apply lor_pos_l; [apply lor_pos_l|]; unfold Sdl.VKM_CTRLASCII; lia. }
  split; [|lia].
  unfold Sdl.on_keydown, Sdl.check_shift. rewrite Hp, Hc. cbv zeta.
  destruct (Z.eqb_spec (toupper sym) 32) as [E|_]; [lia|].
  replace ((65 <=? toupper sym) && (toupper sym <=? 90)) with true
    by (symmetry; apply andb_true_iff; split; apply Z.leb_le; lia).
  rewrite land_letter by lia.
  rewrite <- (neg32_id magnitude) by lia. subst magnitude.
  destruct (Sdl.shift_held kmod); now rewrite ?Z.lor_0_r.
Qed.

Lemma ctrlascii_flag_set (m : Z) :
  Z.testbit m 18 = true -> truthy (Z.land m Sdl.VKM_CTRLASCII) = true.
Proof.
  intros Hb. apply truthy_true. intros E.
  apply (f_equal (fun z => Z.testbit z 18)) in E.
  rewrite Z.land_spec, Hb in E. discriminate E.
Qed.

(** A printable key-down that does return went through the
    CTRL-as-ASCII-control branch: Ctrl is held and the value carries that
    flag, as [dpy_getkeyname] tests it. *)
Lemma on_keydown_printable_return (sym kmod r : Z) :
  Sdl.printable sym = true -> Sdl.on_keydown sym kmod = Sdl.Return r ->
  Sdl.ctrl_held kmod = true /\
  truthy (Z.land (neg32 r) Sdl.VKM_CTRLASCII) = true.
Proof.
  intros Hp Hr.
  destruct (Sdl.ctrl_held kmod) eqn:Hc;
    [|rewrite on_keydown_unctrl in Hr by assumption; discriminate Hr].
  split; [reflexivity|].
  destruct (Z.eqb_spec (toupper sym) 32) as [E|NE].
  - unfold Sdl.on_keydown, Sdl.check_shift in Hr. rewrite Hp, Hc in Hr.
    cbv zeta in Hr. rewrite E in Hr. simpl in Hr.
    destruct (Sdl.shift_held kmod); injection Hr as <-; reflexivity.
  - destruct ((65 <=? toupper sym) && (toupper sym <=? 90)) eqn:El.
    + apply andb_true_iff in El as [L1 L2]. apply Z.leb_le in L1, L2.
      destruct (on_keydown_ctrl_letter sym kmod Hp Hc) as [Hk Hneg]; [lia|].
      rewrite Hk in Hr. injection Hr as <-.
      rewrite neg32_id.
      * rewrite Z.opp_involutive. apply ctrlascii_flag_set.
        rewrite !Z.lor_spec.
        change (Z.testbit Sdl.VKM_CTRLASCII 18) with true.
        now rewrite orb_true_r.
      * assert (0 <= Z.lor (toupper sym - 64) Sdl.VKM_CTRLASCII < 2 ^ 31)
          by (apply lor_below; unfold Sdl.VKM_CTRLASCII; lia).
        assert (0 <= Z.lor (Z.lor (toupper sym - 64) Sdl.VKM_CTRLASCII)
                       (if Sdl.shift_held kmod then Sdl.VKM_SHIFT else 0) < 2 ^ 31)
          by (apply lor_below; [lia|];
              destruct (Sdl.shift_held kmod); unfold Sdl.VKM_SHIFT; lia).
        lia.
    + unfold Sdl.on_keydown in Hr. rewrite Hp, Hc in Hr. cbv zeta in Hr.
      destruct (Z.eqb_spec (toupper sym) 32); [contradiction|].
      rewrite El in Hr. discriminate Hr.
Qed.

(** ** The SDL key pump *)

Section SdlPump.

Variable readu8 : list Byte.byte -> Z.

Lemma wait_loop_expired (expiry : Z) (t : Sdl.tick) (env : list Sdl.tick) :
  expiry <= sint32 (Sdl.ticks t) ->
  Sdl.wait_loop readu8 expiry (t :: env) = Some 0.
Proof. intros H. simpl. apply Z.leb_le in H. now rewrite H. Qed.

Lemma wait_loop_deliver (expiry now : Z) (e : Sdl.SDL_Event) (k : Z)
      (env : list Sdl.tick) :
  sint32 now < expiry -> Sdl.dispatch readu8 e = Sdl.Return k ->
  Sdl.wait_loop readu8 expiry (Sdl.Tick now (Some e) :: env) = Some k.
Proof.
  intros Hnow He. simpl. apply Z.leb_gt in Hnow. now rewrite Hnow, He.
Qed.

Lemma wait_loop_consume (expiry now : Z) (e : Sdl.SDL_Event)
      (env : list Sdl.tick) :
  sint32 now < expiry -> Sdl.dispatch readu8 e = Sdl.Break ->
  Sdl.wait_loop readu8 expiry (Sdl.Tick now (Some e) :: env)
  = Sdl.wait_loop readu8 expiry env.
Proof.
  intros Hnow He. simpl. apply Z.leb_gt in Hnow. now rewrite Hnow, He.
Qed.

(** Turns without text or key-down, before the deadline, leave the loop
    where it was. *)
Lemma wait_loop_quiet (expiry : Z) (quiet rest : list Sdl.tick) :
  Forall (fun q => Sdl.no_input q = true /\ sint32 (Sdl.ticks q) < expiry) quiet ->
  Sdl.wait_loop readu8 expiry (quiet ++ rest) = Sdl.wait_loop readu8 expiry rest.
Proof.
  induction 1 as [|q quiet [Hq Hnow] _ IH]; [reflexivity|].
  simpl. apply Z.leb_gt in Hnow. rewrite Hnow.
  destruct q as [now [[| text | sym kmod | ty]|]]; simpl in *;
    try discriminate Hq; exact IH.
Qed.

Lemma getchar_no_timeout (start : Z) (env : list Sdl.tick) :
  Sdl.dpy_getchar readu8 (-1) start env = Sdl.wait_loop readu8 INT_MAX env.
Proof. reflexivity. Qed.

(** C1 (the SDL backend falls short of the claim): a call whose deadline
    has passed returns 0, which is not the negated TIMEOUT sentinel.  Shown
    for [dpy_getchar(0)] with nothing pending, and for a timeout of a second
    and a half that runs out. *)
Theorem sdl_getchar_deadline_returns_zero (env : list Sdl.tick) :
  Sdl.dpy_getchar readu8 0 1000 (Sdl.Tick 1000 None :: env) = Some 0
  /\ Sdl.dpy_getchar readu8 (3 # 2) 1000
       (Sdl.Tick 1200 None :: Sdl.Tick 2500 None :: env) = Some 0
  /\ 0 <> - Sdl.SDLK_TIMEOUT.
Proof. split; [reflexivity|]. split; [reflexivity|]. discriminate. Qed.

(** C2 (the SDL backend falls short of the claim): the key-down of
    Ctrl+Space comes back as the positive value 0x40000, and of
    Ctrl+Shift+Space as the positive value 0x30000: the space branch negates
    the code before [check_shift] negates it again. *)
Theorem sdl_ctrl_space_returned_positive (env : list Sdl.tick) :
  Sdl.dpy_getchar readu8 (-1) 0
    (Sdl.Tick 0 (Some (Sdl.SDL_KEYDOWN 32 0x40)) :: env) = Some 0x40000
  /\ Sdl.dpy_getchar readu8 (-1) 0
       (Sdl.Tick 0 (Some (Sdl.SDL_KEYDOWN 32 0x41)) :: env) = Some 0x30000
  /\ 0 < 0x30000 < 0x40000.
Proof. split; [reflexivity|]. split; [reflexivity|]. lia. Qed.

(** C5 (as amended): in the SDL backend [dpy_getchar(-1)] does not return
    while neither text nor a key-down comes in (so it never reports a
    timeout), and returns at the first key-down that is either of a key
    outside the printable range, with the value [-(key | CTRL? | SHIFT?)],
    or of Ctrl with a letter, with the value
    [-((letter - 64) | CTRLASCII | SHIFT?)]; that value is negative. *)
Theorem sdl_getchar_blocks_until_keydown
        (start : Z) (quiet : list Sdl.tick) (now sym kmod : Z)
        (rest : list Sdl.tick) :
  Forall (fun q => Sdl.no_input q = true /\ sint32 (Sdl.ticks q) < INT_MAX) quiet ->
  sint32 now < INT_MAX ->
  (Sdl.printable sym = false /\ 0 < sym < 2 ^ 31)
  \/ (Sdl.printable sym = true /\ Sdl.ctrl_held kmod = true
      /\ 65 <= toupper sym <= 90) ->
  let base := if Sdl.printable sym then toupper sym - 64 else sym in
  let ctrl :=
    if Sdl.printable sym then Sdl.VKM_CTRLASCII
    else if Sdl.ctrl_held kmod then Sdl.VKM_CTRL else 0 in
  let shift := if Sdl.shift_held kmod then Sdl.VKM_SHIFT else 0 in
  let magnitude := Z.lor (Z.lor base ctrl) shift in
  Sdl.dpy_getchar readu8 (-1) start quiet = None
  /\ Sdl.dpy_getchar readu8 (-1) start
       (quiet ++ Sdl.Tick now (Some (Sdl.SDL_KEYDOWN sym kmod)) :: rest)
     = Some (- magnitude)
  /\ - magnitude < 0.
Proof.
  intros Hq Hnow Hkey base ctrl shift magnitude.
  rewrite !getchar_no_timeout.
  split.
  { rewrite <- (app_nil_r quiet). now rewrite wait_loop_quiet. }
  rewrite wait_loop_quiet by exact Hq.
  subst magnitude base ctrl shift.
  destruct Hkey as [[Hp Hs]|[Hp [Hc Hl]]]; rewrite Hp.
  - destruct (on_keydown_plain sym kmod Hp Hs) as [Hk Hneg].
    split; [|exact Hneg]. now apply wait_loop_deliver.
  - destruct (on_keydown_ctrl_letter sym kmod Hp Hc Hl) as [Hk Hneg].
    split; [|exact Hneg]. now apply wait_loop_deliver.
Qed.

(** C10: a key-down of a printable ASCII key returns only through the
    CTRL-as-ASCII-control branch (Ctrl held, flag set in the value); without
    Ctrl it is consumed and the loop goes on as if it had not come, so that
    the text-input event that follows is what the caller gets, once, as the
    positive decoded character. *)
Theorem sdl_printable_keydown_reported_as_text
        (expiry now1 now2 sym kmod : Z) (text : list Byte.byte)
        (env : list Sdl.tick) :
  Sdl.printable sym = true ->
  Sdl.ctrl_held kmod = false ->
  sint32 now1 < expiry -> sint32 now2 < expiry ->
  0 < readu8 text ->
  (forall kmod' r, Sdl.on_keydown sym kmod' = Sdl.Return r ->
     Sdl.ctrl_held kmod' = true
     /\ truthy (Z.land (neg32 r) Sdl.VKM_CTRLASCII) = true)
  /\ (forall env',
        Sdl.wait_loop readu8 expiry
          (Sdl.Tick now1 (Some (Sdl.SDL_KEYDOWN sym kmod)) :: env')
        = Sdl.wait_loop readu8 expiry env')
  /\ Sdl.wait_loop readu8 expiry
       (Sdl.Tick now1 (Some (Sdl.SDL_KEYDOWN sym kmod))
          :: Sdl.Tick now2 (Some (Sdl.SDL_TEXTINPUT text)) :: env)
     = Some (readu8 text).
Proof.
  intros Hp Hc H1 H2 Htext.
  assert (Hskip : forall env',
    Sdl.wait_loop readu8 expiry
      (Sdl.Tick now1 (Some (Sdl.SDL_KEYDOWN sym kmod)) :: env')
    = Sdl.wait_loop readu8 expiry env').
  { intros env'. apply wait_loop_consume; [exact H1|].
    simpl. now apply on_keydown_unctrl. }
  split; [|split].
  - intros kmod' r Hr. now apply (on_keydown_printable_return sym kmod' r).
  - exact Hskip.
  - rewrite Hskip. apply wait_loop_deliver; [exact H2|].
    simpl. replace (truthy (readu8 text)) with true; [reflexivity|].
    symmetry. apply truthy_true. lia.
Qed.

End SdlPump.

Lemma sdl_getchar_blocks_until_keydown_witness :
  Sdl.dpy_getchar Sdl.readu8_ascii (-1) 0
    [Sdl.Tick 5 None; Sdl.Tick 9 (Some Sdl.SDL_QUIT); Sdl.Tick 12 (Some (Sdl.SDL_OTHER 512))]
  = None
  /\ Sdl.dpy_getchar Sdl.readu8_ascii (-1) 0
       ([Sdl.Tick 5 None; Sdl.Tick 9 (Some Sdl.SDL_QUIT); Sdl.Tick 12 (Some (Sdl.SDL_OTHER 512))]
          ++ Sdl.Tick 20 (Some (Sdl.SDL_KEYDOWN Sdl.SDLK_LEFT 0x41)) :: [])
     = Some (- 0x40030050)
  /\ - 0x40030050 < 0.
Proof.
  apply (sdl_getchar_blocks_until_keydown Sdl.readu8_ascii 0
           [Sdl.Tick 5 None; Sdl.Tick 9 (Some Sdl.SDL_QUIT); Sdl.Tick 12 (Some (Sdl.SDL_OTHER 512))]
           20 Sdl.SDLK_LEFT 0x41 []).
  - repeat constructor.
  - reflexivity.
  - left. split; [reflexivity|]. vm_compute. split; reflexivity.
Defined.

(** C5, as it was stated, fails on a key-down of the letter key A with no
    modifier: the event is consumed and [dpy_getchar(-1)] has not returned. *)
Lemma sdl_getchar_printable_keydown_keeps_waiting :
  ~ (exists k : Z,
       Sdl.dpy_getchar Sdl.readu8_ascii (-1) 0
         [Sdl.Tick 0 (Some (Sdl.SDL_KEYDOWN 97 0))] = Some k
       /\ k < 0).
Proof. intros [k [Hk _]]. discriminate Hk. Qed.

Lemma sdl_printable_keydown_reported_as_text_witness :
  (forall kmod' r, Sdl.on_keydown 97 kmod' = Sdl.Return r ->
     Sdl.ctrl_held kmod' = true
     /\ truthy (Z.land (neg32 r) Sdl.VKM_CTRLASCII) = true)
  /\ (forall env',
        Sdl.wait_loop Sdl.readu8_ascii INT_MAX
          (Sdl.Tick 10 (Some (Sdl.SDL_KEYDOWN 97 0)) :: env')
        = Sdl.wait_loop Sdl.readu8_ascii INT_MAX env')
  /\ Sdl.wait_loop Sdl.readu8_ascii INT_MAX
       (Sdl.Tick 10 (Some (Sdl.SDL_KEYDOWN 97 0))
          :: Sdl.Tick 11 (Some (Sdl.SDL_TEXTINPUT [Byte.x61])) :: [])
     = Some 97.
Proof.
  apply (sdl_printable_keydown_reported_as_text Sdl.readu8_ascii INT_MAX
           10 11 97 0 [Byte.x61] []); reflexivity.
Defined.

(** ** Key names *)

Lemma keyname_ctrl_a (kmod : Z) (shift : bool) :
  Sdl.ctrl_held kmod = true -> Sdl.shift_held kmod = shift ->
  forall sym, sym = 97 \/ sym = 65 ->
  Sdl.on_keydown sym kmod
  = Sdl.Return (if shift then - 0x50001 else - 0x40001).
Proof.
  intros Hc Hs sym [-> | ->]; unfold Sdl.on_keydown, Sdl.check_shift;
    rewrite Hc, Hs; destruct shift; reflexivity.
Qed.

(** C7: the key-down of the letter key A with Ctrl (and not Shift) is encoded
    as -0x40001, whose name is KEY_^A; with Ctrl and Shift as -0x50001, whose
    name is KEY_S^A; the key-down of Left-Arrow with Shift (and not Ctrl) is
    encoded as -(SDLK_LEFT | SHIFT), whose name is KEY_SLEFT.  SDL reports the
    letter key as the lower-case character; the upper-case one gives the
    same. *)
Theorem sdl_keyname_roundtrip (m_c m_cs m_s : Z) :
  Sdl.ctrl_held m_c = true -> Sdl.shift_held m_c = false ->
  Sdl.ctrl_held m_cs = true -> Sdl.shift_held m_cs = true ->
  Sdl.ctrl_held m_s = false -> Sdl.shift_held m_s = true ->
  (Sdl.on_keydown 97 m_c = Sdl.Return (- 0x40001)
   /\ Sdl.on_keydown 65 m_c = Sdl.Return (- 0x40001)
   /\ Sdl.dpy_getkeyname (- 0x40001) = "KEY_^A"%string)
  /\ (Sdl.on_keydown 97 m_cs = Sdl.Return (- 0x50001)
      /\ Sdl.on_keydown 65 m_cs = Sdl.Return (- 0x50001)
      /\ Sdl.dpy_getkeyname (- 0x50001) = "KEY_S^A"%string)
  /\ (Sdl.on_keydown Sdl.SDLK_LEFT m_s
      = Sdl.Return (- Z.lor Sdl.SDLK_LEFT Sdl.VKM_SHIFT)
      /\ Sdl.dpy_getkeyname (- Z.lor Sdl.SDLK_LEFT Sdl.VKM_SHIFT)
         = "KEY_SLEFT"%string).
Proof.
  intros Hc1 Hs1 Hc2 Hs2 Hc3 Hs3.
  repeat match goal with |- _ /\ _ => split end.
  3, 6, 8: vm_compute; reflexivity.
  - apply (keyname_ctrl_a m_c false Hc1 Hs1). now left.
  - apply (keyname_ctrl_a m_c false Hc1 Hs1). now right.
  - apply (keyname_ctrl_a m_cs true Hc2 Hs2). now left.
  - apply (keyname_ctrl_a m_cs true Hc2 Hs2). now right.
  - unfold Sdl.on_keydown, Sdl.check_shift.
    change (Sdl.printable Sdl.SDLK_LEFT) with false. cbv iota zeta.
    rewrite Hc3, Hs3. reflexivity.
Qed.

Lemma sdl_keyname_roundtrip_witness :
  (Sdl.on_keydown 97 0x40 = Sdl.Return (- 0x40001)
   /\ Sdl.on_keydown 65 0x40 = Sdl.Return (- 0x40001)
   /\ Sdl.dpy_getkeyname (- 0x40001) = "KEY_^A"%string)
  /\ (Sdl.on_keydown 97 0x82 = Sdl.Return (- 0x50001)
      /\ Sdl.on_keydown 65 0x82 = Sdl.Return (- 0x50001)
      /\ Sdl.dpy_getkeyname (- 0x50001) = "KEY_S^A"%string)
  /\ (Sdl.on_keydown Sdl.SDLK_LEFT 0x1
      = Sdl.Return (- Z.lor Sdl.SDLK_LEFT Sdl.VKM_SHIFT)
      /\ Sdl.dpy_getkeyname (- Z.lor Sdl.SDLK_LEFT Sdl.VKM_SHIFT)
         = "KEY_SLEFT"%string).
Proof. apply (sdl_keyname_roundtrip 0x40 0x82 0x1); vm_compute; reflexivity. Defined.

(** The SDL decoder names the negated RESIZE and TIMEOUT sentinels; it has
    no QUIT sentinel, and the magnitude 0x80002 is to it an unknown key. *)
Lemma sdl_keyname_sentinels :
  Sdl.dpy_getkeyname (- Sdl.SDLK_RESIZE) = "KEY_RESIZE"%string
  /\ Sdl.dpy_getkeyname (- Sdl.SDLK_TIMEOUT) = "KEY_TIMEOUT"%string
  /\ Sdl.dpy_getkeyname (- 0x80002) = "KEY_UNKNOWN_524290"%string.
Proof. repeat split; vm_compute; reflexivity. Qed.

(** C4 (the GLFW backend falls short of the claim): [dpy_getkeyname] answers
    KEY_TIMEOUT to the negated RESIZE sentinel and to the negated QUIT
    sentinel, which the file defines and which the decoder it keeps compiled
    out names KEY_RESIZE and KEY_QUIT. *)
Theorem glfw_keyname_placeholder :
  Glfw.dpy_getkeyname (- Glfw.VK_RESIZE) = "KEY_TIMEOUT"%string
  /\ Glfw.dpy_getkeyname (- Glfw.VK_RESIZE) <> "KEY_RESIZE"%string
  /\ Glfw.dpy_getkeyname (- Glfw.VK_QUIT) = "KEY_TIMEOUT"%string
  /\ Glfw.dpy_getkeyname (- Glfw.VK_QUIT) <> "KEY_QUIT"%string.
Proof.
  repeat match goal with |- _ /\ _ => split end;
    try reflexivity; intros H; vm_compute in H; discriminate H.
Qed.

(** C8 (the SDL backend falls short of the claim): for a key of the name
    table and for a function key alike, the SDL decoder marks Ctrl with the
    letter C, not with the caret that its own CTRL-as-ASCII-control branch
    and the contract use. *)
Theorem sdl_keyname_ctrl_marker :
  Sdl.on_keydown Sdl.SDLK_LEFT 0x40
  = Sdl.Return (- Z.lor Sdl.SDLK_LEFT Sdl.VKM_CTRL)
  /\ Sdl.dpy_getkeyname (- Z.lor Sdl.SDLK_LEFT Sdl.VKM_CTRL) = "KEY_CLEFT"%string
  /\ Sdl.dpy_getkeyname (- Z.lor (Z.lor Sdl.SDLK_LEFT Sdl.VKM_CTRL) Sdl.VKM_SHIFT)
     = "KEY_SCLEFT"%string
  /\ Sdl.dpy_getkeyname (- Z.lor Sdl.SDLK_F1 Sdl.VKM_CTRL) = "KEY_CF1"%string
  /\ Sdl.dpy_getkeyname (- Z.lor Sdl.SDLK_LEFT Sdl.VKM_CTRL) <> "KEY_^LEFT"%string.
Proof.
  repeat match goal with |- _ /\ _ => split end.
  5: intros H; vm_compute in H; discriminate H.
  all: vm_compute; reflexivity.
Qed.

(** C9 (the SDL backend falls short of the claim): the code produced for the
    Page Up key is named KEY_PGDN and the one for Page Down KEY_PGUP. *)
Theorem sdl_page_keys_transposed :
  Sdl.on_keydown Sdl.SDLK_PAGEUP 0 = Sdl.Return (- Sdl.SDLK_PAGEUP)
  /\ Sdl.dpy_getkeyname (- Sdl.SDLK_PAGEUP) = "KEY_PGDN"%string
  /\ Sdl.on_keydown Sdl.SDLK_PAGEDOWN 0 = Sdl.Return (- Sdl.SDLK_PAGEDOWN)
  /\ Sdl.dpy_getkeyname (- Sdl.SDLK_PAGEDOWN) = "KEY_PGUP"%string.
Proof. repeat split; vm_compute; reflexivity. Qed.

(** ** The GLFW cell buffer *)

Lemma store_in_range (scr : list Glfw.cell) (i ch a : Z) :
  0 <= i < Z.of_nat (length scr) ->
  Glfw.store scr i ch a = Some (<[Z.to_nat i := Glfw.Cell ch (uint8 a)]> scr).
Proof.
  intros Hi. unfold Glfw.store.
  replace ((0 <=? i) && (i <? Z.of_nat (length scr))) with true; [reflexivity|].
  symmetry. apply andb_true_iff. split; [apply Z.leb_le|apply Z.ltb_lt]; lia.
Qed.

Lemma clear_cells_spec (a : Z) (n : nat) :
  forall (p : Z) (scr : list Glfw.cell),
    0 <= p -> p + Z.of_nat n <= Z.of_nat (length scr) ->
    exists scr',
      Glfw.clear_cells a n p scr = Some scr'
      /\ length scr' = length scr
      /\ forall j : Z, 0 <= j ->
           scr' !! Z.to_nat j
           = if (p <=? j) && (j <? p + Z.of_nat n)
             then Some (Glfw.Cell 32 (uint8 a)) else scr !! Z.to_nat j.
Proof.
  induction n as [|n IH]; intros p scr Hp Hlen.
  - exists scr. repeat split. intros j Hj.
    replace ((p <=? j) && (j <? p + Z.of_nat 0)) with false; [reflexivity|].
    symmetry. apply andb_false_iff.
    destruct (Z.leb_spec p j); [right; apply Z.ltb_ge; lia|now left].
  - simpl Glfw.clear_cells. rewrite store_in_range by lia. simpl.
    destruct (IH (p + 1) (<[Z.to_nat p := Glfw.Cell 32 (uint8 a)]> scr))
      as (scr' & Hrun & Hl & Hget); [lia|rewrite length_insert; lia|].
    exists scr'. split; [exact Hrun|]. split; [now rewrite Hl, length_insert|].
    intros j Hj. rewrite (Hget j Hj).
    destruct (Z.leb_spec (p + 1) j), (Z.ltb_spec j (p + 1 + Z.of_nat n)),
      (Z.leb_spec p j), (Z.ltb_spec j (p + Z.of_nat (S n)));
      simpl; try lia; try reflexivity;
      try (apply list_lookup_insert_ne; lia).
    assert (j = p) as -> by lia.
    apply list_lookup_insert_eq. lia.
Qed.

Lemma same_row (w y cy cx x1 x2 : Z) :
  0 <= x1 -> x2 < w -> 0 <= cx < w ->
  (y * w + x1 <= cx + cy * w < y * w + x1 + (x2 - x1 + 1))
  <-> (cy = y /\ x1 <= cx <= x2).
Proof.
  intros H1 H2 Hc. split.
  - intros Hr. destruct (Z.lt_trichotomy cy y) as [L|[E|L]].
    + assert (0 <= (y - cy - 1) * w) by nia. nia.
    + subst cy. lia.
    + assert (0 <= (cy - y - 1) * w) by nia. nia.
  - intros [-> Hx]. lia.
Qed.

Lemma clear_rows_spec (a w x1 x2 : Z) (n : nat) :
  forall (y : Z) (scr : list Glfw.cell),
    0 <= x1 <= x2 -> x2 < w -> 0 <= y ->
    (y + Z.of_nat n) * w <= Z.of_nat (length scr) ->
    exists scr',
      Glfw.clear_rows a w x1 x2 n y scr = Some scr'
      /\ length scr' = length scr
      /\ forall cx cy : Z, 0 <= cx < w -> 0 <= cy ->
           scr' !! Z.to_nat (cx + cy * w)
           = if (y <=? cy) && (cy <? y + Z.of_nat n) && (x1 <=? cx) && (cx <=? x2)
             then Some (Glfw.Cell 32 (uint8 a))
             else scr !! Z.to_nat (cx + cy * w).
Proof.
  induction n as [|n IH]; intros y scr Hx1 Hx2 Hy Hlen.
  - exists scr. repeat split. intros cx cy Hcx Hcy.
    replace ((y <=? cy) && (cy <? y + Z.of_nat 0)) with false; [reflexivity|].
    symmetry. apply andb_false_iff.
    destruct (Z.leb_spec y cy); [right; apply Z.ltb_ge; lia|now left].
  - simpl Glfw.clear_rows.
    destruct (clear_cells_spec a (Z.to_nat (x2 - x1 + 1)) (y * w + x1) scr)
      as (scr1 & Hrun1 & Hl1 & Hget1); [nia|nia|].
    rewrite Hrun1. simpl.
    destruct (IH (y + 1) scr1) as (scr' & Hrun & Hl & Hget);
      [lia|lia|lia|rewrite Hl1; lia|].
    exists scr'. split; [exact Hrun|]. split; [congruence|].
    intros cx cy Hcx Hcy. rewrite (Hget cx cy Hcx Hcy).
    rewrite (Hget1 (cx + cy * w)) by nia.
    rewrite Z2Nat.id by lia.
    pose proof (same_row w y cy cx x1 x2 ltac:(lia) Hx2 Hcx) as Hrow.
    destruct (Z.leb_spec (y + 1) cy), (Z.ltb_spec cy (y + 1 + Z.of_nat n)),
      (Z.leb_spec y cy), (Z.ltb_spec cy (y + Z.of_nat (S n))),
      (Z.leb_spec x1 cx), (Z.leb_spec cx x2),
      (Z.leb_spec (y * w + x1) (cx + cy * w)),
      (Z.ltb_spec (cx + cy * w) (y * w + x1 + (x2 - x1 + 1)));
      simpl; try reflexivity; try lia.
Qed.

(** [dpy_writechar] outside the grid changes nothing. *)
Lemma glfw_writechar_out_of_range (x y ch : Z) (d : Glfw.display) :
  x < 0 \/ Glfw.screenWidth d <= x \/ y < 0 \/ Glfw.screenHeight d <= y ->
  Glfw.dpy_writechar x y ch d = Some d.
Proof.
  intros Hout. unfold Glfw.dpy_writechar.
  destruct (Glfw.screen d) as [scr|]; [|reflexivity].
  destruct (Z.ltb_spec x 0), (Z.leb_spec (Glfw.screenWidth d) x),
    (Z.ltb_spec y 0), (Z.leb_spec (Glfw.screenHeight d) y);
    simpl; try reflexivity; lia.
Qed.


(** [dpy_cleararea] on a rectangle inside the grid sets the cells of the
    rectangle to a space with the low byte of the register, and no other
    cell. *)
Lemma glfw_cleararea_in_range (x1 y1 x2 y2 : Z) (d : Glfw.display) :
  Glfw.allocated d ->
  0 <= x1 <= x2 -> x2 < Glfw.screenWidth d ->
  0 <= y1 <= y2 -> y2 < Glfw.screenHeight d ->
  exists d',
    Glfw.dpy_cleararea x1 y1 x2 y2 d = Some d'
    /\ (forall x y, 0 <= x < Glfw.screenWidth d -> 0 <= y ->
          Glfw.cell_at d' x y
          = if (y1 <=? y) && (y <=? y2) && (x1 <=? x) && (x <=? x2)
            then Some (Glfw.Cell 32 (uint8 (Glfw.currentAttr d)))
            else Glfw.cell_at d x y)
    /\ Glfw.currentAttr d' = Glfw.currentAttr d
    /\ Glfw.allocated d'.
Proof.
  intros (scr & Hscr & Hlen) Hx1 Hx2 Hy1 Hy2.
  unfold Glfw.dpy_cleararea. rewrite Hscr.
  destruct (clear_rows_spec (Glfw.currentAttr d) (Glfw.screenWidth d) x1 x2
              (Z.to_nat (y2 - y1 + 1)) y1 scr)
    as (scr' & Hrun & Hl & Hget); [lia|lia|lia|nia|].
  rewrite Hrun. simpl. eexists. split; [reflexivity|].
  split; [|split; [reflexivity|]].
  - intros x y Hx Hy. unfold Glfw.cell_at. rewrite Hscr. simpl.
    rewrite (Hget x y Hx Hy).
    replace (y <? y1 + Z.of_nat (Z.to_nat (y2 - y1 + 1))) with (y <=? y2);
      [reflexivity|].
    destruct (Z.leb_spec y y2), (Z.ltb_spec y (y1 + Z.of_nat (Z.to_nat (y2 - y1 + 1))));
      try reflexivity; lia.
  - eexists. split; [reflexivity|]. simpl. congruence.
Qed.

(** On a buffer that is allocated the loops of [dpy_cleararea] do not clip:
    on a grid of 3 columns and 2 rows, clearing columns 1 to 3 of row 0
    overwrites the cell at column 0 of row 1, and clearing columns 1 to 3 of
    row 1 stores past the end of the array. *)
Lemma glfw_cleararea_not_clipped :
  let d := Glfw.Display 7 3 2 (Some (replicate 6 (Glfw.Cell 88 0))) 0 0 false in
  Glfw.cell_at d 0 1 = Some (Glfw.Cell 88 0)
  /\ (exists d', Glfw.dpy_cleararea 1 0 3 0 d = Some d'
                 /\ Glfw.cell_at d' 0 1 = Some (Glfw.Cell 32 7))
  /\ Glfw.dpy_cleararea 1 1 3 1 d = None.
Proof.
  split; [reflexivity|]. split; [|reflexivity].
  eexists. split; reflexivity.
Qed.

(** ** The states the GLFW backend can be in *)






(** ** The attribute that the GLFW backend stores *)








(** ** The GLFW key pump *)

(** The only value the GLFW loop ever returns is the negated TIMEOUT
    sentinel. *)
Lemma glfw_wait_loop_returns_timeout (timeout endTime : Q) (env : list Glfw.wake) (k : Z) :
  Glfw.wait_loop timeout endTime env = Some k -> k = - Glfw.VK_TIMEOUT.
Proof.
  induction env as [|w env IH]; simpl; [discriminate|].
  destruct (Qeq_bool timeout (-1)); [exact IH|].
  destruct (Qle_bool 0 (endTime - Glfw.clock w)); simpl; [exact IH|].
  now intros [= <-].
Qed.

(** Called with -1 it never returns, whatever events are delivered. *)
Lemma glfw_getchar_no_timeout_waits (start : Q) (env : list Glfw.wake) :
  Glfw.dpy_getchar (-1) start env = None.
Proof.
  unfold Glfw.dpy_getchar. generalize (start + -1)%Q as endTime. intros endTime.
  induction env as [|w env IH]; simpl; [reflexivity|exact IH].
Qed.

(** Once the clock has passed the deadline it returns the negated TIMEOUT
    sentinel. *)
Lemma glfw_wait_loop_expired (timeout endTime : Q) (w : Glfw.wake) (env : list Glfw.wake) :
  Qeq_bool timeout (-1) = false -> (endTime < Glfw.clock w)%Q ->
  Glfw.wait_loop timeout endTime (w :: env) = Some (- Glfw.VK_TIMEOUT).
Proof.
  intros Ht Hlate. simpl. rewrite Ht.
  destruct (Qle_bool 0 (endTime - Glfw.clock w)) eqn:E; [|reflexivity].
  apply Qle_bool_iff in E.
  assert (Glfw.clock w <= endTime)%Q.
  { apply (Qplus_le_l _ _ (- Glfw.clock w)). rewrite Qplus_opp_r. exact E. }
  exfalso. apply (Qlt_not_le _ _ Hlate). assumption.
Qed.

(** * Further properties of the GLFW cell buffer *)

Lemma glfw_writechar_result (x y ch : Z) (d : Glfw.display) (scr : list Glfw.cell) :
  Glfw.screen d = Some scr ->
  Z.of_nat (length scr) = Glfw.screenWidth d * Glfw.screenHeight d ->
  0 <= x < Glfw.screenWidth d -> 0 <= y < Glfw.screenHeight d ->
  Glfw.dpy_writechar x y ch d
  = Some (Glfw.with_screen d
            (<[Z.to_nat (x + y * Glfw.screenWidth d)
               := Glfw.Cell ch (uint8 (Glfw.currentAttr d))]> scr)).
Proof.
  intros Hscr Hlen Hx Hy.
  assert (Hi : 0 <= x + y * Glfw.screenWidth d < Z.of_nat (length scr)) by nia.
  unfold Glfw.dpy_writechar. rewrite Hscr.
  destruct (Z.ltb_spec x 0), (Z.leb_spec (Glfw.screenWidth d) x),
    (Z.ltb_spec y 0), (Z.leb_spec (Glfw.screenHeight d) y); try lia.
  simpl. now rewrite store_in_range by exact Hi.
Qed.

Lemma cell_index_inj (w x y x' y' : Z) :
  0 <= x < w -> 0 <= x' < w -> 0 <= y -> 0 <= y' ->
  Z.to_nat (x + y * w) = Z.to_nat (x' + y' * w) -> x = x' /\ y = y'.
Proof.
  intros Hx Hx' Hy Hy' E.
  assert (E' : x + y * w = x' + y' * w) by (apply Z2Nat.inj; nia).
  destruct (Z.lt_trichotomy y y') as [L|[L|L]].
  - assert (0 <= (y' - y - 1) * w) by nia. nia.
  - subst y'. lia.
  - assert (0 <= (y - y' - 1) * w) by nia. nia.
Qed.

(** X1: [dpy_writechar] with a null [screen], or with [x] or [y] outside
    the grid, changes nothing at all. *)
Theorem glfw_writechar_clipped (x y ch : Z) (d : Glfw.display) :
  Glfw.screen d = None
  \/ x < 0 \/ Glfw.screenWidth d <= x \/ y < 0 \/ Glfw.screenHeight d <= y ->
  Glfw.dpy_writechar x y ch d = Some d.
Proof.
  intros [Hnull|Hout]; [|now apply glfw_writechar_out_of_range].
  unfold Glfw.dpy_writechar. now rewrite Hnull.
Qed.

Lemma glfw_writechar_clipped_witness :
  let d := Glfw.Display 7 3 2 (Some (replicate 6 (Glfw.Cell 88 0))) 0 0 false in
  Glfw.dpy_writechar 3 1 65 d = Some d.
Proof.
  intros d. apply (glfw_writechar_clipped 3 1 65 d).
  right. right. left. simpl. lia.
Defined.

(** X2: on an allocated buffer [dpy_writechar] never stores outside the
    array, whatever the coordinates; it leaves the register, the size and the
    cursor as they are and the buffer allocated. *)
Theorem glfw_writechar_never_faults (x y ch : Z) (d : Glfw.display) :
  Glfw.allocated d ->
  exists d',
    Glfw.dpy_writechar x y ch d = Some d'
    /\ Glfw.allocated d'
    /\ Glfw.currentAttr d' = Glfw.currentAttr d
    /\ Glfw.dpy_getscreensize d' = Glfw.dpy_getscreensize d
    /\ (Glfw.cursorx d', Glfw.cursory d', Glfw.cursorShown d')
       = (Glfw.cursorx d, Glfw.cursory d, Glfw.cursorShown d).
Proof.
  intros Hd.
  destruct (Z_lt_dec x 0) as [?|Hx0]; [|destruct (Z_le_dec (Glfw.screenWidth d) x) as [?|Hxw];
    [|destruct (Z_lt_dec y 0) as [?|Hy0]; [|destruct (Z_le_dec (Glfw.screenHeight d) y) as [?|Hyh]]]].
  1-4: exists d; rewrite glfw_writechar_out_of_range by lia; repeat split; exact Hd.
  destruct Hd as (scr & Hscr & Hlen).
  rewrite (glfw_writechar_result x y ch d scr) by (assumption || lia).
  eexists. split; [reflexivity|]. repeat split.
  eexists. split; [reflexivity|]. simpl. now rewrite length_insert.
Qed.

Lemma glfw_writechar_never_faults_witness :
  let d := Glfw.Display 7 3 2 (Some (replicate 6 (Glfw.Cell 88 0))) 0 0 false in
  exists d',
    Glfw.dpy_writechar 100 (-5) 65 d = Some d'
    /\ Glfw.allocated d'
    /\ Glfw.currentAttr d' = Glfw.currentAttr d
    /\ Glfw.dpy_getscreensize d' = Glfw.dpy_getscreensize d
    /\ (Glfw.cursorx d', Glfw.cursory d', Glfw.cursorShown d')
       = (Glfw.cursorx d, Glfw.cursory d, Glfw.cursorShown d).
Proof.
  intros d. apply (glfw_writechar_never_faults 100 (-5) 65 d).
  exists (replicate 6 (Glfw.Cell 88 0)). split; reflexivity.
Defined.

(** X3: inside the grid [dpy_writechar] changes exactly one cell: the cell
    at (x, y) becomes the character with the low byte of the register, and
    every other cell of the grid reads as before. *)
Theorem glfw_writechar_changes_one_cell (x y ch : Z) (d : Glfw.display) :
  Glfw.allocated d ->
  0 <= x < Glfw.screenWidth d -> 0 <= y < Glfw.screenHeight d ->
  exists d',
    Glfw.dpy_writechar x y ch d = Some d'
    /\ Glfw.cell_at d' x y = Some (Glfw.Cell ch (uint8 (Glfw.currentAttr d)))
    /\ forall x' y', 0 <= x' < Glfw.screenWidth d -> 0 <= y' ->
         (x', y') <> (x, y) -> Glfw.cell_at d' x' y' = Glfw.cell_at d x' y'.
Proof.
  intros (scr & Hscr & Hlen) Hx Hy.
  rewrite (glfw_writechar_result x y ch d scr) by assumption.
  eexists. split; [reflexivity|]. split.
  - unfold Glfw.cell_at. simpl. apply list_lookup_insert_eq. nia.
  - intros x' y' Hx' Hy' Hne. unfold Glfw.cell_at. rewrite Hscr. simpl.
    apply list_lookup_insert_ne. intros E.
    apply (cell_index_inj (Glfw.screenWidth d)) in E; [|lia..].
    destruct E as [-> ->]. now apply Hne.
Qed.

Lemma glfw_writechar_changes_one_cell_witness :
  let d := Glfw.Display 7 3 2 (Some (replicate 6 (Glfw.Cell 88 0))) 0 0 false in
  exists d',
    Glfw.dpy_writechar 2 1 65 d = Some d'
    /\ Glfw.cell_at d' 2 1 = Some (Glfw.Cell 65 7)
    /\ forall x' y', 0 <= x' < 3 -> 0 <= y' ->
         (x', y') <> (2, 1) -> Glfw.cell_at d' x' y' = Glfw.cell_at d x' y'.
Proof.
  intros d. apply (glfw_writechar_changes_one_cell 2 1 65 d).
  - exists (replicate 6 (Glfw.Cell 88 0)). split; reflexivity.
  - simpl. lia.
  - simpl. lia.
Defined.

(** X4: two [dpy_writechar] calls inside the grid: on different cells the
    order does not matter, and on the same cell the second call alone gives
    the same buffer. *)
Theorem glfw_writechar_twice (x1 y1 c1 x2 y2 c2 : Z) (d : Glfw.display) :
  Glfw.allocated d ->
  0 <= x1 < Glfw.screenWidth d -> 0 <= y1 < Glfw.screenHeight d ->
  0 <= x2 < Glfw.screenWidth d -> 0 <= y2 < Glfw.screenHeight d ->
  ((x1, y1) <> (x2, y2) ->
   Glfw.dpy_writechar x1 y1 c1 d ≫= Glfw.dpy_writechar x2 y2 c2
   = Glfw.dpy_writechar x2 y2 c2 d ≫= Glfw.dpy_writechar x1 y1 c1)
  /\ Glfw.dpy_writechar x1 y1 c1 d ≫= Glfw.dpy_writechar x1 y1 c2
     = Glfw.dpy_writechar x1 y1 c2 d.
Proof.
  intros (scr & Hscr & Hlen) Hx1 Hy1 Hx2 Hy2.
  assert (Hstep : forall x y ch ch' x' y',
            0 <= x < Glfw.screenWidth d -> 0 <= y < Glfw.screenHeight d ->
            0 <= x' < Glfw.screenWidth d -> 0 <= y' < Glfw.screenHeight d ->
            Glfw.dpy_writechar x y ch d ≫= Glfw.dpy_writechar x' y' ch'
            = Some (Glfw.with_screen d
                      (<[Z.to_nat (x' + y' * Glfw.screenWidth d)
                         := Glfw.Cell ch' (uint8 (Glfw.currentAttr d))]>
                       (<[Z.to_nat (x + y * Glfw.screenWidth d)
                          := Glfw.Cell ch (uint8 (Glfw.currentAttr d))]> scr)))).
  { intros x y ch ch' x' y' Hx Hy Hx' Hy'.
    rewrite (glfw_writechar_result x y ch d scr) by assumption. simpl.
    erewrite glfw_writechar_result; [reflexivity|reflexivity| |assumption|assumption].
    simpl. now rewrite length_insert. }
  split.
  - intros Hne. rewrite !Hstep by assumption. do 2 f_equal.
    apply list_insert_insert_ne. intros E.
    apply (cell_index_inj (Glfw.screenWidth d)) in E; [|lia..].
    destruct E as [-> ->]. now apply Hne.
  - rewrite Hstep by assumption.
    rewrite (glfw_writechar_result x1 y1 c2 d scr) by assumption.
    now rewrite list_insert_insert_eq.
Qed.

Lemma glfw_writechar_twice_witness :
  let d := Glfw.Display 7 3 2 (Some (replicate 6 (Glfw.Cell 88 0))) 0 0 false in
  ((0, 1) <> (2, 0) ->
   Glfw.dpy_writechar 0 1 65 d ≫= Glfw.dpy_writechar 2 0 66
   = Glfw.dpy_writechar 2 0 66 d ≫= Glfw.dpy_writechar 0 1 65)
  /\ Glfw.dpy_writechar 0 1 65 d ≫= Glfw.dpy_writechar 0 1 66
     = Glfw.dpy_writechar 0 1 66 d.
Proof.
  intros d. apply (glfw_writechar_twice 0 1 65 2 0 66 d).
  - exists (replicate 6 (Glfw.Cell 88 0)). split; reflexivity.
  - simpl; lia.
  - simpl; lia.
  - simpl; lia.
  - simpl; lia.
Defined.

Lemma bind_some_inv {A B : Type} (m : option A) (f : A -> option B) (b : B) :
  m ≫= f = Some b -> exists a, m = Some a /\ f a = Some b.
Proof. destruct m as [a|]; simpl; [eauto|discriminate]. Qed.

Lemma store_some_iff (scr : list Glfw.cell) (i ch a : Z) :
  is_Some (Glfw.store scr i ch a) <-> 0 <= i < Z.of_nat (length scr).
Proof.
  unfold Glfw.store.
  destruct (Z.leb_spec 0 i), (Z.ltb_spec i (Z.of_nat (length scr))); simpl;
    split; intros Hyp; try lia; try (eexists; reflexivity);
    destruct Hyp as [s Hs]; discriminate Hs.
Qed.

Lemma store_length (scr scr' : list Glfw.cell) (i ch a : Z) :
  Glfw.store scr i ch a = Some scr' -> length scr' = length scr.
Proof.
  unfold Glfw.store.
  destruct ((0 <=? i) && (i <? Z.of_nat (length scr))); [|discriminate].
  intros [= <-]. apply length_insert.
Qed.

Lemma clear_cells_length (a : Z) (n : nat) :
  forall (p : Z) (scr scr' : list Glfw.cell),
    Glfw.clear_cells a n p scr = Some scr' -> length scr' = length scr.
Proof.
  induction n as [|n IH]; intros p scr scr'; simpl.
  - now intros [= <-].
  - intros H. apply bind_some_inv in H as (scr1 & H1 & H2).
    apply store_length in H1. apply IH in H2. congruence.
Qed.

Lemma clear_rows_length (a w x1 x2 : Z) (n : nat) :
  forall (y : Z) (scr scr' : list Glfw.cell),
    Glfw.clear_rows a w x1 x2 n y scr = Some scr' -> length scr' = length scr.
Proof.
  induction n as [|n IH]; intros y scr scr'; simpl.
  - now intros [= <-].
  - intros H. apply bind_some_inv in H as (scr1 & H1 & H2).
    apply clear_cells_length in H1. apply IH in H2. congruence.
Qed.

Lemma clear_cells_S (a : Z) (n : nat) (p : Z) (scr : list Glfw.cell) :
  Glfw.clear_cells a (S n) p scr
  = Glfw.store scr p 32 a ≫= Glfw.clear_cells a n (p + 1).
Proof. reflexivity. Qed.

Lemma clear_rows_S (a w x1 x2 : Z) (n : nat) (y : Z) (scr : list Glfw.cell) :
  Glfw.clear_rows a w x1 x2 (S n) y scr
  = Glfw.clear_cells a (Z.to_nat (x2 - x1 + 1)) (y * w + x1) scr
      ≫= Glfw.clear_rows a w x1 x2 n (y + 1).
Proof. reflexivity. Qed.

(** A run of cells stays inside the array exactly when its first and last
    cell do. *)
Lemma clear_cells_some_iff (a : Z) (n : nat) :
  forall (p : Z) (scr : list Glfw.cell),
    is_Some (Glfw.clear_cells a (S n) p scr)
    <-> 0 <= p /\ p + Z.of_nat (S n) <= Z.of_nat (length scr).
Proof.
  induction n as [|n IH]; intros p scr; rewrite clear_cells_S;
    pose proof (store_some_iff scr p 32 a) as Hst;
    destruct (Glfw.store scr p 32 a) as [scr1|] eqn:E.
  - assert (0 <= p < Z.of_nat (length scr)) by (apply Hst; now eexists).
    simpl. split; [lia|now eexists].
  - split; [intros Hn; now apply is_Some_None in Hn|].
    intros [H0 H1]. exfalso. apply (@is_Some_None (list Glfw.cell)), Hst. lia.
  - assert (0 <= p < Z.of_nat (length scr)) by (apply Hst; now eexists).
    apply store_length in E.
    change (Some scr1 ≫= Glfw.clear_cells a (S n) (p + 1))
      with (Glfw.clear_cells a (S n) (p + 1) scr1).
    rewrite (IH (p + 1) scr1), E. lia.
  - split; [intros Hn; now apply is_Some_None in Hn|].
    intros [H0 H1]. exfalso. apply (@is_Some_None (list Glfw.cell)), Hst. lia.
Qed.

Lemma clear_rows_no_cells (a w x1 x2 : Z) (n : nat) :
  forall (y : Z) (scr : list Glfw.cell),
    x2 < x1 -> Glfw.clear_rows a w x1 x2 n y scr = Some scr.
Proof.
  induction n as [|n IH]; intros y scr Hx; simpl; [reflexivity|].
  replace (Z.to_nat (x2 - x1 + 1)) with O by lia. simpl. now apply IH.
Qed.

(** The rows of a non-empty rectangle, on a grid of non-negative width, stay
    inside the array exactly when the first cell of the first row and the
    last cell of the last row do. *)
Lemma clear_rows_some_iff (a w x1 x2 : Z) (n : nat) :
  forall (y : Z) (scr : list Glfw.cell),
    0 <= w -> x1 <= x2 ->
    is_Some (Glfw.clear_rows a w x1 x2 (S n) y scr)
    <-> 0 <= y * w + x1
        /\ (y + Z.of_nat n) * w + x2 < Z.of_nat (length scr).
Proof.
  induction n as [|n IH]; intros y scr Hw Hx; rewrite clear_rows_S;
    destruct (Z.to_nat (x2 - x1 + 1)) as [|c] eqn:Ec; try lia;
    pose proof (clear_cells_some_iff a c (y * w + x1) scr) as Hrow;
    destruct (Glfw.clear_cells a (S c) (y * w + x1) scr) as [scr1|] eqn:E.
  - assert (0 <= y * w + x1
            /\ y * w + x1 + Z.of_nat (S c) <= Z.of_nat (length scr))
      by (apply Hrow; now eexists).
    simpl. split; [lia|now eexists].
  - split; [intros Hn; now apply is_Some_None in Hn|].
    intros [H0 H1]. exfalso. apply (@is_Some_None (list Glfw.cell)), Hrow. lia.
  - assert (0 <= y * w + x1
            /\ y * w + x1 + Z.of_nat (S c) <= Z.of_nat (length scr))
      by (apply Hrow; now eexists).
    apply clear_cells_length in E.
    change (Some scr1 ≫= Glfw.clear_rows a w x1 x2 (S n) (y + 1))
      with (Glfw.clear_rows a w x1 x2 (S n) (y + 1) scr1).
    rewrite (IH (y + 1) scr1 Hw Hx), E. nia.
  - split; [intros Hn; now apply is_Some_None in Hn|].
    intros [H0 H1]. exfalso. apply (@is_Some_None (list Glfw.cell)), Hrow. nia.
Qed.

Lemma with_screen_same (d : Glfw.display) (scr : list Glfw.cell) :
  Glfw.screen d = Some scr -> Glfw.with_screen d scr = d.
Proof. destruct d; simpl; intros ->; reflexivity. Qed.

Lemma cleararea_nothing_to_clear (x1 y1 x2 y2 : Z) (d : Glfw.display) :
  x2 < x1 \/ y2 < y1 -> Glfw.dpy_cleararea x1 y1 x2 y2 d = Some d.
Proof.
  intros Hempty. unfold Glfw.dpy_cleararea.
  destruct (Glfw.screen d) as [scr|] eqn:Hscr; [|reflexivity].
  assert (Hrun : Glfw.clear_rows (Glfw.currentAttr d) (Glfw.screenWidth d) x1 x2
                   (Z.to_nat (y2 - y1 + 1)) y1 scr = Some scr).
  { destruct (Z_lt_dec x2 x1) as [Hx|Hx]; [now apply clear_rows_no_cells|].
    replace (Z.to_nat (y2 - y1 + 1)) with O by lia. reflexivity. }
  rewrite Hrun. simpl. now rewrite with_screen_same.
Qed.

(** X5: [dpy_cleararea] changes nothing and stores nowhere when [screen] is
    null, when [y2 < y1] (whatever [x1] and [x2]), and when [x2 < x1] on rows
    that lie inside an allocated grid. *)
Theorem glfw_cleararea_empty_rectangle (x1 y1 x2 y2 : Z) (d : Glfw.display) :
  Glfw.screen d = None
  \/ y2 < y1
  \/ (x2 < x1 /\ Glfw.allocated d /\ 0 <= x1 <= Glfw.screenWidth d
      /\ 0 <= y1 /\ y2 < Glfw.screenHeight d) ->
  Glfw.dpy_cleararea x1 y1 x2 y2 d = Some d.
Proof.
  intros [Hnull|[Hrows|(Hcols & _)]].
  - unfold Glfw.dpy_cleararea. now rewrite Hnull.
  - apply cleararea_nothing_to_clear. now right.
  - apply cleararea_nothing_to_clear. now left.
Qed.

Lemma glfw_cleararea_empty_rectangle_witness :
  let d := Glfw.Display 7 3 2 (Some (replicate 6 (Glfw.Cell 88 0))) 0 0 false in
  Glfw.dpy_cleararea 2 0 1 1 d = Some d.
Proof.
  intros d. apply (glfw_cleararea_empty_rectangle 2 0 1 1 d).
  right. right. split; [lia|]. split.
  - exists (replicate 6 (Glfw.Cell 88 0)). split; reflexivity.
  - simpl. lia.
Defined.

(** X6: on an allocated grid, [dpy_cleararea] of a rectangle whose columns
    lie inside the grid and whose first row is not above it keeps all its
    stores inside the array exactly when its last row lies inside the grid;
    one that reaches below the grid stores past the end of the array. *)
Theorem glfw_cleararea_defined_iff (x1 y1 x2 y2 : Z) (d : Glfw.display) :
  Glfw.allocated d ->
  0 <= x1 <= x2 -> x2 < Glfw.screenWidth d -> 0 <= y1 <= y2 ->
  is_Some (Glfw.dpy_cleararea x1 y1 x2 y2 d) <-> y2 < Glfw.screenHeight d.
Proof.
  intros (scr & Hscr & Hlen) Hx1 Hx2 Hy. unfold Glfw.dpy_cleararea. rewrite Hscr.
  replace (Z.to_nat (y2 - y1 + 1)) with (S (Z.to_nat (y2 - y1))) by lia.
  pose proof (clear_rows_some_iff (Glfw.currentAttr d) (Glfw.screenWidth d)
                x1 x2 (Z.to_nat (y2 - y1)) y1 scr ltac:(lia) ltac:(lia)) as Hrows.
  rewrite Z2Nat.id in Hrows by lia.
  replace (y1 + (y2 - y1)) with y2 in Hrows by lia.
  assert (Hiff : is_Some (Glfw.clear_rows (Glfw.currentAttr d) (Glfw.screenWidth d)
                            x1 x2 (S (Z.to_nat (y2 - y1))) y1 scr)
                 <-> y2 < Glfw.screenHeight d).
  { rewrite Hrows, Hlen. split.
    - intros [_ Hlast].
      destruct (Z_lt_dec y2 (Glfw.screenHeight d)) as [?|Hge]; [assumption|].
      assert (0 <= (y2 - Glfw.screenHeight d) * Glfw.screenWidth d) by nia. nia.
    - intros Hin. split; [nia|].
      assert (0 <= (Glfw.screenHeight d - y2 - 1) * Glfw.screenWidth d) by nia.
      nia. }
  rewrite <- Hiff.
  destruct (Glfw.clear_rows _ _ _ _ _ _ _) as [scr'|]; simpl.
  - split; intros _; now eexists.
  - split; intros Hn; now apply is_Some_None in Hn.
Qed.

Lemma glfw_cleararea_defined_iff_witness :
  let d := Glfw.Display 7 3 2 (Some (replicate 6 (Glfw.Cell 88 0))) 0 0 false in
  is_Some (Glfw.dpy_cleararea 1 0 2 1 d) <-> 1 < 2.
Proof.
  intros d. apply (glfw_cleararea_defined_iff 1 0 2 1 d).
  - exists (replicate 6 (Glfw.Cell 88 0)). split; reflexivity.
  - lia.
  - simpl. lia.
  - lia.
Defined.

(** X7: [dpy_cleararea] of a rectangle inside the grid sets every cell of
    the rectangle to a space with the low byte of the register and leaves
    every other cell of the grid as it was. *)
Theorem glfw_cleararea_exact (x1 y1 x2 y2 : Z) (d : Glfw.display) :
  Glfw.allocated d ->
  0 <= x1 <= x2 -> x2 < Glfw.screenWidth d ->
  0 <= y1 <= y2 -> y2 < Glfw.screenHeight d ->
  exists d',
    Glfw.dpy_cleararea x1 y1 x2 y2 d = Some d'
    /\ forall x y, 0 <= x < Glfw.screenWidth d -> 0 <= y ->
         Glfw.cell_at d' x y
         = if (y1 <=? y) && (y <=? y2) && (x1 <=? x) && (x <=? x2)
           then Some (Glfw.Cell 32 (uint8 (Glfw.currentAttr d)))
           else Glfw.cell_at d x y.
Proof.
  intros Hd Hx1 Hx2 Hy1 Hy2.
  destruct (glfw_cleararea_in_range x1 y1 x2 y2 d Hd Hx1 Hx2 Hy1 Hy2)
    as (d' & Hrun & Hcells & _).
  exists d'. split; assumption.
Qed.

Lemma glfw_cleararea_exact_witness :
  let d := Glfw.Display 7 3 2 (Some (replicate 6 (Glfw.Cell 88 0))) 0 0 false in
  exists d',
    Glfw.dpy_cleararea 1 0 2 0 d = Some d'
    /\ forall x y, 0 <= x < 3 -> 0 <= y ->
         Glfw.cell_at d' x y
         = if (0 <=? y) && (y <=? 0) && (1 <=? x) && (x <=? 2)
           then Some (Glfw.Cell 32 7)
           else Glfw.cell_at d x y.
Proof.
  intros d. apply (glfw_cleararea_exact 1 0 2 0 d).
  - exists (replicate 6 (Glfw.Cell 88 0)). split; reflexivity.
  - lia.
  - simpl; lia.
  - lia.
  - simpl; lia.
Defined.

(** X8: whenever [dpy_cleararea] stays inside the array, whatever its
    arguments, the buffer keeps its size and the register, the grid size and
    the cursor are untouched. *)
Theorem glfw_cleararea_keeps_state (x1 y1 x2 y2 : Z) (d d' : Glfw.display) :
  Glfw.allocated d ->
  Glfw.dpy_cleararea x1 y1 x2 y2 d = Some d' ->
  Glfw.allocated d'
  /\ Glfw.currentAttr d' = Glfw.currentAttr d
  /\ Glfw.dpy_getscreensize d' = Glfw.dpy_getscreensize d
  /\ (Glfw.cursorx d', Glfw.cursory d', Glfw.cursorShown d')
     = (Glfw.cursorx d, Glfw.cursory d, Glfw.cursorShown d).
Proof.
  intros (scr & Hscr & Hlen). unfold Glfw.dpy_cleararea. rewrite Hscr.
  intros Hrun. apply bind_some_inv in Hrun as (scr' & Hrows & [= <-]).
  apply clear_rows_length in Hrows.
  repeat split. exists scr'. split; [reflexivity|]. simpl. congruence.
Qed.

Lemma glfw_cleararea_keeps_state_witness :
  let d := Glfw.Display 7 3 2 (Some (replicate 6 (Glfw.Cell 88 0))) 1 1 true in
  let d' := Glfw.Display 7 3 2
              (Some [Glfw.Cell 88 0; Glfw.Cell 88 0; Glfw.Cell 32 7;
                     Glfw.Cell 32 7; Glfw.Cell 88 0; Glfw.Cell 88 0]) 1 1 true in
  Glfw.allocated d'
  /\ Glfw.currentAttr d' = Glfw.currentAttr d
  /\ Glfw.dpy_getscreensize d' = Glfw.dpy_getscreensize d
  /\ (Glfw.cursorx d', Glfw.cursory d', Glfw.cursorShown d')
     = (Glfw.cursorx d, Glfw.cursory d, Glfw.cursorShown d).
Proof.
  intros d d'. apply (glfw_cleararea_keeps_state 2 0 3 0 d d').
  - exists (replicate 6 (Glfw.Cell 88 0)). split; reflexivity.
  - reflexivity.
Defined.

(** X9: on an allocated grid [dpy_clearscreen] leaves a buffer in which
    every cell is a space with the low byte of the register. *)
Theorem glfw_clearscreen_fills (d : Glfw.display) :
  Glfw.allocated d ->
  0 <= Glfw.screenWidth d -> 0 <= Glfw.screenHeight d ->
  Glfw.dpy_clearscreen d
  = Some (Glfw.with_screen d
            (replicate (Z.to_nat (Glfw.screenWidth d * Glfw.screenHeight d))
                       (Glfw.Cell 32 (uint8 (Glfw.currentAttr d))))).
Proof.
  intros (scr & Hscr & Hlen) Hw Hh.
  set (w := Glfw.screenWidth d) in *. set (h := Glfw.screenHeight d) in *.
  destruct (Z.eq_dec (w * h) 0) as [Hz|Hnz].
  - assert (scr = []) as -> by (apply nil_length_inv; lia).
    unfold Glfw.dpy_clearscreen.
    rewrite cleararea_nothing_to_clear by (fold w h; nia).
    rewrite Hz. simpl. now rewrite with_screen_same.
  - assert (0 < w) by nia. assert (0 < h) by nia.
    unfold Glfw.dpy_clearscreen, Glfw.dpy_cleararea. rewrite Hscr. fold w h.
    destruct (clear_rows_spec (Glfw.currentAttr d) w 0 (w - 1)
                (Z.to_nat (h - 1 - 0 + 1)) 0 scr)
      as (scr' & Hrun & Hl & Hget); [lia|lia|lia|nia|].
    rewrite Hrun. simpl. do 2 f_equal.
    apply list_eq. intros i.
    destruct (decide (i < length scr)%nat) as [Hi|Hi].
    + rewrite lookup_replicate_2 by lia.
      pose proof (Z.div_mod (Z.of_nat i) w ltac:(lia)) as Hdm.
      pose proof (Z.mod_pos_bound (Z.of_nat i) w ltac:(lia)) as Hm.
      assert (0 <= Z.of_nat i / w) by (apply Z.div_pos; lia).
      assert (Z.of_nat i / w < h) by (apply Z.div_lt_upper_bound; lia).
      replace i with (Z.to_nat (Z.of_nat i mod w + Z.of_nat i / w * w)) at 1 by lia.
      rewrite Hget by lia.
      replace ((0 <=? Z.of_nat i / w)
               && (Z.of_nat i / w <? 0 + Z.of_nat (Z.to_nat (h - 1 - 0 + 1)))
               && (0 <=? Z.of_nat i mod w) && (Z.of_nat i mod w <=? w - 1))
        with true; [reflexivity|].
      symmetry. rewrite !andb_true_iff, !Z.leb_le, Z.ltb_lt. lia.
    + rewrite (lookup_ge_None_2 scr') by lia.
      symmetry. apply lookup_ge_None_2. rewrite length_replicate. lia.
Qed.

Lemma glfw_clearscreen_fills_witness :
  let d := Glfw.Display 0x107 3 2 (Some (replicate 6 (Glfw.Cell 88 0))) 0 0 false in
  Glfw.dpy_clearscreen d
  = Some (Glfw.Display 0x107 3 2 (Some (replicate 6 (Glfw.Cell 32 7))) 0 0 false).
Proof.
  intros d. apply (glfw_clearscreen_fills d).
  - exists (replicate 6 (Glfw.Cell 88 0)). split; reflexivity.
  - simpl; lia.
  - simpl; lia.
Defined.

(** * Further properties of the GLFW attribute register *)

(** X10: two [dpy_setattr] calls in a row act as the single call with
    and-mask [a1 & a2] and or-mask [(o1 & a2) | o2]; repeating a call changes
    nothing more; the masks (-1, 0) leave the display as it is, and the masks
    (0, v) load [v] whatever the register held. *)
Theorem glfw_setattr_compose (a1 o1 a2 o2 v : Z) (d : Glfw.display) :
  Glfw.dpy_setattr a2 o2 (Glfw.dpy_setattr a1 o1 d)
  = Glfw.dpy_setattr (Z.land a1 a2) (Z.lor (Z.land o1 a2) o2) d
  /\ Glfw.dpy_setattr a1 o1 (Glfw.dpy_setattr a1 o1 d) = Glfw.dpy_setattr a1 o1 d
  /\ Glfw.dpy_setattr (-1) 0 d = d
  /\ Glfw.currentAttr (Glfw.dpy_setattr 0 v d) = v.
Proof.
  split; [|split; [|split]].
  - unfold Glfw.dpy_setattr. simpl. f_equal.
    apply Z.bits_inj'. intros n _.
    rewrite !Z.lor_spec, !Z.land_spec, !Z.lor_spec, !Z.land_spec.
    destruct (Z.testbit (Glfw.currentAttr d) n), (Z.testbit a1 n),
      (Z.testbit o1 n), (Z.testbit a2 n), (Z.testbit o2 n); reflexivity.
  - unfold Glfw.dpy_setattr. simpl. f_equal.
    apply Z.bits_inj'. intros n _.
    rewrite !Z.lor_spec, !Z.land_spec, !Z.lor_spec, !Z.land_spec.
    destruct (Z.testbit (Glfw.currentAttr d) n), (Z.testbit a1 n),
      (Z.testbit o1 n); reflexivity.
  - destruct d. unfold Glfw.dpy_setattr. simpl.
    now rewrite Z.land_m1_r, Z.lor_0_r.
  - unfold Glfw.dpy_setattr. simpl. now rewrite Z.land_0_r, Z.lor_0_l.
Qed.

(** * Further properties of the GLFW key pump *)

Lemma glfw_wait_loop_no_timeout (timeout endTime : Q) (env : list Glfw.wake) :
  Qeq_bool timeout (-1) = true -> Glfw.wait_loop timeout endTime env = None.
Proof.
  intros Ht. induction env as [|w env IH]; simpl; [reflexivity|].
  now rewrite Ht.
Qed.

Lemma glfw_wait_loop_early (timeout endTime : Q) (early rest : list Glfw.wake) :
  Forall (fun e => (Glfw.clock e <= endTime)%Q) early ->
  Glfw.wait_loop timeout endTime (early ++ rest)
  = Glfw.wait_loop timeout endTime rest.
Proof.
  induction 1 as [|e early He _ IH]; [reflexivity|].
  simpl. destruct (Qeq_bool timeout (-1)); [exact IH|].
  replace (Qle_bool 0 (endTime - Glfw.clock e)) with true; [exact IH|].
  symmetry. apply Qle_bool_iff. lra.
Qed.

(** X11: whatever the timeout and whatever keys and characters GLFW
    delivers, a [dpy_getchar] that returns returns the negated TIMEOUT
    sentinel, and its timeout was not -1: no key ever comes back. *)
Theorem glfw_getchar_only_timeout
        (timeout start : Q) (env : list Glfw.wake) (k : Z) :
  Glfw.dpy_getchar timeout start env = Some k ->
  k = - Glfw.VK_TIMEOUT /\ Qeq_bool timeout (-1) = false.
Proof.
  unfold Glfw.dpy_getchar. intros Hk. split.
  - exact (glfw_wait_loop_returns_timeout _ _ _ _ Hk).
  - destruct (Qeq_bool timeout (-1)) eqn:Ht; [|reflexivity].
    rewrite glfw_wait_loop_no_timeout in Hk by exact Ht. discriminate Hk.
Qed.

Lemma glfw_getchar_only_timeout_witness :
  - 0x80001 = - Glfw.VK_TIMEOUT /\ Qeq_bool (1 # 2) (-1) = false.
Proof.
  apply (glfw_getchar_only_timeout (1 # 2) 10
           [Glfw.Wake 10 [Glfw.KeyEvent 65 38 1 0; Glfw.CharEvent 97];
            Glfw.Wake (21 # 2) []; Glfw.Wake 11 []] (- 0x80001)).
  reflexivity.
Defined.

(** X12: with a timeout other than -1, the loop of [dpy_getchar] keeps
    waiting while the clock reads at most the end time it was given, the end
    time itself included, and returns the negated TIMEOUT sentinel at the
    first reading beyond it.  ([endTime] is the sum as the code has it; the
    test [waitTime < 0] on the difference of two values holds exactly when
    the first is the smaller.) *)
Theorem glfw_wait_loop_timeout_fires
        (timeout endTime : Q) (early : list Glfw.wake) (w : Glfw.wake)
        (rest : list Glfw.wake) :
  Qeq_bool timeout (-1) = false ->
  Forall (fun e => (Glfw.clock e <= endTime)%Q) early ->
  (endTime < Glfw.clock w)%Q ->
  Glfw.wait_loop timeout endTime early = None
  /\ Glfw.wait_loop timeout endTime (early ++ w :: rest)
     = Some (- Glfw.VK_TIMEOUT).
Proof.
  intros Ht Hearly Hlate. split.
  - rewrite <- (app_nil_r early). now rewrite glfw_wait_loop_early.
  - rewrite glfw_wait_loop_early by exact Hearly.
    now apply glfw_wait_loop_expired.
Qed.

Lemma glfw_wait_loop_timeout_fires_witness :
  Glfw.wait_loop (1 # 2) (21 # 2)
    [Glfw.Wake 10 [Glfw.KeyEvent 65 38 1 0]; Glfw.Wake (21 # 2) []] = None
  /\ Glfw.wait_loop (1 # 2) (21 # 2)
       ([Glfw.Wake 10 [Glfw.KeyEvent 65 38 1 0]; Glfw.Wake (21 # 2) []]
          ++ Glfw.Wake 11 [] :: [])
     = Some (- Glfw.VK_TIMEOUT).
Proof.
  apply (glfw_wait_loop_timeout_fires (1 # 2) (21 # 2)
           [Glfw.Wake 10 [Glfw.KeyEvent 65 38 1 0]; Glfw.Wake (21 # 2) []]
           (Glfw.Wake 11 []) []).
  - reflexivity.
  - repeat constructor; simpl; unfold Qle; simpl; lia.
  - simpl. unfold Qlt. simpl. lia.
Defined.

(** * Further properties of the SDL key pump *)

Section SdlPumpMore.

Variable readu8 : list Byte.byte -> Z.

(** X13: when the clock reads the expiry time or later, and neither text nor
    a key-down came before, the loop of [dpy_getchar] returns 0, a code that
    [dpy_getkeyname] calls KEY_UNKNOWN_0.  A call with the timeout -1 has the
    expiry time [INT_MAX], so it too returns 0 if the clock reads exactly
    that. *)
Theorem sdl_wait_loop_expiry
        (expiry start : Z) (quiet : list Sdl.tick) (t : Sdl.tick)
        (rest : list Sdl.tick) :
  Forall (fun q => Sdl.no_input q = true /\ sint32 (Sdl.ticks q) < expiry) quiet ->
  expiry <= sint32 (Sdl.ticks t) ->
  Sdl.wait_loop readu8 expiry (quiet ++ t :: rest) = Some 0
  /\ (expiry = INT_MAX -> 0 <= start < 2 ^ 31 ->
      Sdl.dpy_getchar readu8 (-1) start (quiet ++ t :: rest) = Some 0)
  /\ Sdl.dpy_getkeyname 0 = "KEY_UNKNOWN_0"%string.
Proof.
  intros Hq Ht.
  assert (Hloop : Sdl.wait_loop readu8 expiry (quiet ++ t :: rest) = Some 0).
  { rewrite wait_loop_quiet by exact Hq. now apply wait_loop_expired. }
  split; [exact Hloop|]. split; [|reflexivity].
  intros -> _. rewrite getchar_no_timeout. exact Hloop.
Qed.

(** X14: window-close events and events of every type other than text input
    and key-down are never reported: before the expiry time, taking them (and
    the waits that delivered nothing) out of the sequence does not change what
    the loop returns. *)
Theorem sdl_ignored_events_leave_no_trace (expiry : Z) (env : list Sdl.tick) :
  Forall (fun t => Sdl.no_input t = true -> sint32 (Sdl.ticks t) < expiry) env ->
  Sdl.wait_loop readu8 expiry env
  = Sdl.wait_loop readu8 expiry
      (List.filter (fun t => negb (Sdl.no_input t)) env).
Proof.
  induction 1 as [|t env Ht _ IH]; [reflexivity|].
  simpl List.filter. destruct (Sdl.no_input t) eqn:Hn; simpl negb; cbv iota.
  - specialize (Ht eq_refl). apply Z.leb_gt in Ht.
    simpl. rewrite Ht.
    destruct t as [now [[| text | sym kmod | ty]|]]; simpl in *;
      try discriminate Hn; exact IH.
  - simpl. destruct (expiry <=? sint32 (Sdl.ticks t)); [reflexivity|].
    destruct (Sdl.arrival t) as [e|]; [|exact IH].
    destruct (Sdl.dispatch readu8 e); [reflexivity|exact IH].
Qed.

(** X15: a text-input event that arrives before the expiry time, after turns
    without text or key-down, is skipped when [readu8] decodes 0 from it, and
    otherwise ends the call with the decoded value, whatever that value
    is. *)
Theorem sdl_text_input_returned
        (expiry now : Z) (quiet : list Sdl.tick) (text : list Byte.byte)
        (rest : list Sdl.tick) :
  Forall (fun q => Sdl.no_input q = true /\ sint32 (Sdl.ticks q) < expiry) quiet ->
  sint32 now < expiry ->
  Sdl.wait_loop readu8 expiry
    (quiet ++ Sdl.Tick now (Some (Sdl.SDL_TEXTINPUT text)) :: rest)
  = if readu8 text =? 0 then Sdl.wait_loop readu8 expiry rest
    else Some (readu8 text).
Proof.
  intros Hq Hnow. rewrite wait_loop_quiet by exact Hq.
  destruct (Z.eqb_spec (readu8 text) 0) as [E|NE].
  - apply wait_loop_consume; [exact Hnow|]. simpl.
    replace (truthy (readu8 text)) with false; [reflexivity|].
    symmetry. now apply truthy_false.
  - apply wait_loop_deliver; [exact Hnow|]. simpl.
    replace (truthy (readu8 text)) with true; [reflexivity|].
    symmetry. now apply truthy_true.
Qed.

End SdlPumpMore.

Lemma sdl_wait_loop_expiry_witness :
  Sdl.wait_loop Sdl.readu8_ascii INT_MAX
    ([Sdl.Tick 5 (Some Sdl.SDL_QUIT)]
       ++ Sdl.Tick 0x7fffffff (Some (Sdl.SDL_KEYDOWN Sdl.SDLK_LEFT 0)) :: [])
  = Some 0
  /\ (INT_MAX = INT_MAX -> 0 <= 0 < 2 ^ 31 ->
      Sdl.dpy_getchar Sdl.readu8_ascii (-1) 0
        ([Sdl.Tick 5 (Some Sdl.SDL_QUIT)]
           ++ Sdl.Tick 0x7fffffff (Some (Sdl.SDL_KEYDOWN Sdl.SDLK_LEFT 0)) :: [])
      = Some 0)
  /\ Sdl.dpy_getkeyname 0 = "KEY_UNKNOWN_0"%string.
Proof.
  apply (sdl_wait_loop_expiry Sdl.readu8_ascii INT_MAX 0
           [Sdl.Tick 5 (Some Sdl.SDL_QUIT)]
           (Sdl.Tick 0x7fffffff (Some (Sdl.SDL_KEYDOWN Sdl.SDLK_LEFT 0))) []).
  - repeat constructor.
  - simpl. vm_compute. discriminate.
Defined.

Lemma sdl_ignored_events_leave_no_trace_witness :
  Sdl.wait_loop Sdl.readu8_ascii 100
    [Sdl.Tick 5 (Some Sdl.SDL_QUIT); Sdl.Tick 7 (Some (Sdl.SDL_OTHER 512));
     Sdl.Tick 9 (Some (Sdl.SDL_TEXTINPUT [Byte.x61]))]
  = Sdl.wait_loop Sdl.readu8_ascii 100
      (List.filter (fun t => negb (Sdl.no_input t))
         [Sdl.Tick 5 (Some Sdl.SDL_QUIT); Sdl.Tick 7 (Some (Sdl.SDL_OTHER 512));
          Sdl.Tick 9 (Some (Sdl.SDL_TEXTINPUT [Byte.x61]))]).
Proof.
  apply (sdl_ignored_events_leave_no_trace Sdl.readu8_ascii 100).
  repeat constructor; intros _; reflexivity.
Defined.

Lemma sdl_text_input_returned_witness :
  Sdl.wait_loop Sdl.readu8_ascii 100
    ([Sdl.Tick 5 (Some Sdl.SDL_QUIT)]
       ++ Sdl.Tick 6 (Some (Sdl.SDL_TEXTINPUT []))
       :: [Sdl.Tick 9 (Some (Sdl.SDL_TEXTINPUT [Byte.x61]))])
  = if Sdl.readu8_ascii [] =? 0
    then Sdl.wait_loop Sdl.readu8_ascii 100
           [Sdl.Tick 9 (Some (Sdl.SDL_TEXTINPUT [Byte.x61]))]
    else Some (Sdl.readu8_ascii []).
Proof.
  apply (sdl_text_input_returned Sdl.readu8_ascii 100 6
           [Sdl.Tick 5 (Some Sdl.SDL_QUIT)] []
           [Sdl.Tick 9 (Some (Sdl.SDL_TEXTINPUT [Byte.x61]))]).
  - repeat constructor.
  - reflexivity.
Defined.

(** * Further properties of the SDL key encoding and key names *)

(** X16: the key-downs that [dpy_getchar] swallows are exactly those of a key
    in the printable range [[0x20, 0x80)] pressed without Ctrl, or with Ctrl
    when the key is neither the space nor a letter; every other key-down
    returns.  The Delete key, whose code 127 lies in that range, is therefore
    never reported, whatever the modifiers. *)
Theorem sdl_keydown_dropped_iff (sym kmod : Z) :
  (Sdl.on_keydown sym kmod = Sdl.Break
   <-> Sdl.printable sym = true
       /\ (Sdl.ctrl_held kmod = false
           \/ (toupper sym <> 32 /\ ~ 65 <= toupper sym <= 90)))
  /\ Sdl.on_keydown Sdl.SDLK_DELETE kmod = Sdl.Break.
Proof.
  split.
  - unfold Sdl.on_keydown, Sdl.check_shift.
    destruct (Sdl.printable sym); [|split; [discriminate|intros [Hq _]; discriminate Hq]].
    destruct (Sdl.ctrl_held kmod); [|split; [intros _; split; [reflexivity|now left]|reflexivity]].
    cbv zeta.
    destruct (Z.eqb_spec (toupper sym) 32) as [E|NE].
    + split; [discriminate|]. intros [_ [Hq|[Hq _]]]; [discriminate Hq|contradiction].
    + destruct (Z.leb_spec 65 (toupper sym)), (Z.leb_spec (toupper sym) 90); simpl.
      * split; [discriminate|]. intros [_ [Hq|[_ Hq]]]; [discriminate Hq|lia].
      * split; [intros _|reflexivity]. split; [reflexivity|right; lia].
      * split; [intros _|reflexivity]. split; [reflexivity|right; lia].
      * split; [intros _|reflexivity]. split; [reflexivity|right; lia].
  - unfold Sdl.on_keydown.
    change (Sdl.printable Sdl.SDLK_DELETE) with true. cbv iota zeta.
    destruct (Sdl.ctrl_held kmod); reflexivity.
Qed.

Ltac name_of_closed_keydown :=
  lazymatch goal with
  | |- exists k, ?lhs = Sdl.Return k /\ _ =>
      let v := eval vm_compute in lhs in
      lazymatch v with
      | Sdl.Return ?c =>
          exists c; split; [vm_compute; reflexivity|];
          repeat split; vm_compute; reflexivity
      end
  end.

(** X17: for every key of the name table that can be reported (all but
    Delete) and every modifier word, the key-down comes back as a negative
    code whose name is KEY_, then S if Shift is held, then C if Ctrl is held,
    then the table's entry for the key. *)
Theorem sdl_table_key_roundtrip (sym kmod : Z) (t : string) :
  Sdl.template sym = Some t -> Sdl.printable sym = false ->
  exists k,
    Sdl.on_keydown sym kmod = Sdl.Return k
    /\ k < 0
    /\ Sdl.dpy_getkeyname k
       = ("KEY_" ++ fmt_opt (Sdl.shift_held kmod) "S"
                 ++ fmt_opt (Sdl.ctrl_held kmod) "C" ++ t)%string.
Proof.
  intros Ht Hp. unfold Sdl.template in Ht.
  repeat
    lazymatch type of Ht with
    | (if ?s =? ?c then _ else _) = _ =>
        destruct (Z.eqb_spec s c) as [->|_];
        [ first
            [ discriminate Hp
            | injection Ht as <-;
              unfold Sdl.on_keydown, Sdl.check_shift; rewrite Hp; cbv zeta;
              destruct (Sdl.ctrl_held kmod), (Sdl.shift_held kmod);
              name_of_closed_keydown ]
        | ]
    end.
  discriminate Ht.
Qed.

Lemma sdl_table_key_roundtrip_witness :
  exists k,
    Sdl.on_keydown Sdl.SDLK_HOME 0x42 = Sdl.Return k
    /\ k < 0
    /\ Sdl.dpy_getkeyname k = "KEY_SCHOME"%string.
Proof.
  apply (sdl_table_key_roundtrip Sdl.SDLK_HOME 0x42 "HOME"); reflexivity.
Defined.

Lemma ctrl_letter_name (n : nat) (shift : bool) :
  (n < 26)%nat ->
  Sdl.dpy_getkeyname
    (- Z.lor (Z.lor (65 + Z.of_nat n - 64) Sdl.VKM_CTRLASCII)
             (if shift then Sdl.VKM_SHIFT else 0))
  = ("KEY_" ++ fmt_opt shift "S" ++ "^"
            ++ String (ascii_of_N (Z.to_N (65 + Z.of_nat n))) EmptyString)%string.
Proof.
  do 26 (destruct n as [|n]; [intros _; destruct shift; vm_compute; reflexivity|]).
  lia.
Qed.

(** X18: for every letter key held with Ctrl, lower or upper case, the
    key-down comes back as a negative code whose name is KEY_, then S if
    Shift is held, then the caret and the upper-case letter. *)
Theorem sdl_ctrl_letter_roundtrip (sym kmod : Z) :
  Sdl.printable sym = true -> Sdl.ctrl_held kmod = true ->
  65 <= toupper sym <= 90 ->
  exists k,
    Sdl.on_keydown sym kmod = Sdl.Return k
    /\ k < 0
    /\ Sdl.dpy_getkeyname k
       = ("KEY_" ++ fmt_opt (Sdl.shift_held kmod) "S" ++ "^"
                 ++ String (ascii_of_N (Z.to_N (toupper sym))) EmptyString)%string.
Proof.
  intros Hp Hc Hl.
  destruct (on_keydown_ctrl_letter sym kmod Hp Hc Hl) as [Hk Hneg].
  eexists. split; [exact Hk|]. split; [exact Hneg|].
  replace (toupper sym) with (65 + Z.of_nat (Z.to_nat (toupper sym - 65))) by lia.
  apply ctrl_letter_name. lia.
Qed.

Lemma sdl_ctrl_letter_roundtrip_witness :
  exists k,
    Sdl.on_keydown 113 0x81 = Sdl.Return k
    /\ k < 0
    /\ Sdl.dpy_getkeyname k = "KEY_S^Q"%string.
Proof.
  apply (sdl_ctrl_letter_roundtrip 113 0x81); [reflexivity|reflexivity|].
  vm_compute. split; discriminate.
Defined.

Lemma function_key_case (n : nat) (kmod : Z) :
  (n < 58)%nat ->
  Sdl.template (Sdl.of_scancode (58 + Z.of_nat n)) = None ->
  exists k,
    Sdl.on_keydown (Sdl.of_scancode (58 + Z.of_nat n)) kmod = Sdl.Return k
    /\ k < 0
    /\ Sdl.dpy_getkeyname k
       = ("KEY_" ++ fmt_opt (Sdl.shift_held kmod) "S"
                 ++ fmt_opt (Sdl.ctrl_held kmod) "C"
                 ++ "F" ++ fmt_d (58 + Z.of_nat n - 57))%string.
Proof.
  do 58 (destruct n as [|n];
         [ intros _ Ht;
           first
             [ vm_compute in Ht; discriminate Ht
             | unfold Sdl.on_keydown, Sdl.check_shift;
               lazymatch goal with
               | |- context [Sdl.printable ?s] =>
                   change (Sdl.printable s) with false
               end;
               cbv iota zeta;
               destruct (Sdl.ctrl_held kmod), (Sdl.shift_held kmod);
               name_of_closed_keydown ]
         | ]).
  lia.
Qed.

(** X19: every key whose scancode lies from that of F1 (58) to that of F24
    (115) and that has no entry in the name table is named as a function key
    numbered [scancode - 57], after the same S and C markers: F1 to F12 get
    their own numbers, while F13 to F24 (scancodes 104 to 115) come out as
    F47 to F58 and the keys in between (Print Screen, Pause, ...) as function
    keys too. *)
Theorem sdl_function_key_names (sc kmod : Z) :
  58 <= sc <= 115 ->
  Sdl.template (Sdl.of_scancode sc) = None ->
  exists k,
    Sdl.on_keydown (Sdl.of_scancode sc) kmod = Sdl.Return k
    /\ k < 0
    /\ Sdl.dpy_getkeyname k
       = ("KEY_" ++ fmt_opt (Sdl.shift_held kmod) "S"
                 ++ fmt_opt (Sdl.ctrl_held kmod) "C"
                 ++ "F" ++ fmt_d (sc - 57))%string.
Proof.
  intros Hsc.
  replace sc with (58 + Z.of_nat (Z.to_nat (sc - 58))) by lia.
  apply function_key_case. lia.
Qed.

Lemma sdl_function_key_names_witness :
  exists k,
    Sdl.on_keydown (Sdl.of_scancode 104) 0x40 = Sdl.Return k
    /\ k < 0
    /\ Sdl.dpy_getkeyname k = "KEY_CF47"%string.
Proof.
  apply (sdl_function_key_names 104 0x40); [lia|reflexivity].
Defined.

Lemma land_submask (x M b : Z) :
  Z.land x M = 0 -> Z.land M b = b -> Z.land x b = 0.
Proof. intros Hx Hb. now rewrite <- Hb, Z.land_assoc, Hx, Z.land_0_l. Qed.

(** The base key survives the mask of [dpy_getkeyname] when it fits in 31
    bits and leaves bits 16 to 19 clear. *)
Lemma land_keymask (sym : Z) :
  0 <= sym < 2 ^ 31 -> Z.land sym 0xf0000 = 0 -> Z.land sym 0xfff0ffff = sym.
Proof.
  intros Hs Hclear.
  assert (H31 : Z.land sym (Z.ones 31) = sym)
    by (rewrite Z.land_ones by lia; apply Z.mod_small; lia).
  assert (Hlow : Z.land sym 0x7ff0ffff = sym).
  { rewrite <- H31 at 2.
    change (Z.ones 31) with (Z.lor 0x7ff0ffff 0xf0000).
    now rewrite Z.land_lor_distr_r, Hclear, Z.lor_0_r. }
  assert (Htop : Z.land sym 0x80000000 = 0).
  { rewrite <- H31, <- Z.land_assoc.
    change (Z.land (Z.ones 31) 0x80000000) with 0. apply Z.land_0_r. }
  change 0xfff0ffff with (Z.lor 0x7ff0ffff 0x80000000).
  now rewrite Z.land_lor_distr_r, Hlow, Htop, Z.lor_0_r.
Qed.

Lemma plain_magnitude_fields (sym : Z) (ctrl shift : bool) :
  0 < sym < 2 ^ 31 -> Z.land sym 0xf0000 = 0 ->
  let m := Z.lor (Z.lor sym (if ctrl then Sdl.VKM_CTRL else 0))
                 (if shift then Sdl.VKM_SHIFT else 0) in
  0 < m < 2 ^ 31
  /\ Z.land m 0xfff0ffff = sym
  /\ Z.land m Sdl.VKM_CTRLASCII = 0
  /\ Z.land m 0x80000 = 0.
Proof.
  intros Hs Hclear m.
  assert (Hc : 0 <= (if ctrl then Sdl.VKM_CTRL else 0) < 2 ^ 31)
    by (destruct ctrl; unfold Sdl.VKM_CTRL; lia).
  assert (Hh : 0 <= (if shift then Sdl.VKM_SHIFT else 0) < 2 ^ 31)
    by (destruct shift; unfold Sdl.VKM_SHIFT; lia).
  assert (H1 : 0 <= Z.lor sym (if ctrl then Sdl.VKM_CTRL else 0) < 2 ^ 31)
    by (apply lor_below; lia).
  assert (H2 : 0 <= m < 2 ^ 31) by (apply lor_below; lia).
  assert (H3 : 0 < m) by (apply lor_pos_l; [apply lor_pos_l|]; lia).
  split; [lia|]. subst m.
  rewrite !Z.land_lor_distr_l.
  rewrite (land_keymask sym) by (assumption || lia).
  rewrite (land_submask sym 0xf0000 Sdl.VKM_CTRLASCII Hclear eq_refl).
  rewrite (land_submask sym 0xf0000 0x80000 Hclear eq_refl).
  destruct ctrl, shift; vm_compute Z.land; rewrite ?Z.lor_0_r; repeat split.
Qed.

(** X20: a key outside the printable range that fits in 31 bits with bits 16
    to 19 clear, has no entry in the name table and is not in the
    function-key range comes back as a negative code that [dpy_getkeyname]
    renders as KEY_UNKNOWN_ followed by the decimal magnitude of the code,
    modifier bits included. *)
Theorem sdl_unknown_key_name (sym kmod : Z) :
  Sdl.printable sym = false -> 0 < sym < 2 ^ 31 ->
  Z.land sym 0xf0000 = 0 ->
  Sdl.template sym = None ->
  ~ (Sdl.SDLK_F1 <= sym <= Sdl.SDLK_F24) ->
  exists k,
    Sdl.on_keydown sym kmod = Sdl.Return k
    /\ k < 0
    /\ Sdl.dpy_getkeyname k = ("KEY_UNKNOWN_" ++ fmt_d (- k))%string.
Proof.
  intros Hp Hs Hclear Ht Hf.
  destruct (on_keydown_plain sym kmod Hp Hs) as [Hk Hneg].
  destruct (plain_magnitude_fields sym (Sdl.ctrl_held kmod) (Sdl.shift_held kmod)
              Hs Hclear) as (Hm & Hkey & Hca & H19).
  set (m := Z.lor (Z.lor sym (if Sdl.ctrl_held kmod then Sdl.VKM_CTRL else 0))
                  (if Sdl.shift_held kmod then Sdl.VKM_SHIFT else 0)) in *.
  exists (- m). split; [exact Hk|]. split; [lia|].
  unfold Sdl.dpy_getkeyname.
  assert (Hnk : neg32 (- m) = m)
    by (unfold neg32; rewrite Z.opp_involutive; apply sint32_id; lia).
  rewrite Hnk, Z.opp_involutive.
  assert (Hr : (m =? Sdl.SDLK_RESIZE) = false).
  { apply Z.eqb_neq. intros E. rewrite E in H19. discriminate H19. }
  assert (Hto : (m =? Sdl.SDLK_TIMEOUT) = false).
  { apply Z.eqb_neq. intros E. rewrite E in H19. discriminate H19. }
  rewrite Hr, Hto. cbv zeta.
  rewrite Hca. change (truthy 0) with false. cbv iota.
  assert (Hu : uint32 m = m) by (apply Z.mod_small; lia).
  rewrite Hu, Hkey, (sint32_id sym) by lia.
  rewrite Ht.
  replace ((Sdl.SDLK_F1 <=? sym) && (sym <=? Sdl.SDLK_F24)) with false;
    [reflexivity|].
  symmetry. apply andb_false_iff.
  destruct (Z.leb_spec Sdl.SDLK_F1 sym); [|now left].
  right. apply Z.leb_gt. lia.
Qed.

Lemma sdl_unknown_key_name_witness :
  exists k,
    Sdl.on_keydown (Sdl.of_scancode 57) 0x41 = Sdl.Return k
    /\ k < 0
    /\ Sdl.dpy_getkeyname k = ("KEY_UNKNOWN_" ++ fmt_d (- k))%string.
Proof.
  apply (sdl_unknown_key_name (Sdl.of_scancode 57) 0x41).
  - reflexivity.
  - vm_compute. split; reflexivity.
  - reflexivity.
  - reflexivity.
  - vm_compute. intros [H _]. apply H. reflexivity.
Defined.

(** X21: for a key code in (0, 2^31), a key-down that returns returns a
    negative code, with one exception: the space bar held with Ctrl, which
    returns the positive 0x40000, or 0x30000 when Shift is held too. *)
Theorem sdl_keydown_sign (sym kmod r : Z) :
  0 < sym < 2 ^ 31 ->
  Sdl.on_keydown sym kmod = Sdl.Return r ->
  r < 0
  \/ (sym = 32 /\ Sdl.ctrl_held kmod = true
      /\ r = if Sdl.shift_held kmod then 0x30000 else 0x40000).
Proof.
  intros Hs Hr.
  destruct (Sdl.printable sym) eqn:Hp.
  - destruct (Sdl.ctrl_held kmod) eqn:Hc;
      [|rewrite on_keydown_unctrl in Hr by assumption; discriminate Hr].
    destruct (Z.eqb_spec (toupper sym) 32) as [E|NE].
    + right.
      assert (sym = 32) as ->.
      { unfold toupper in E.
        destruct ((97 <=? sym) && (sym <=? 122)) eqn:El; [|exact E].
        apply andb_true_iff in El as [L _]. apply Z.leb_le in L. lia. }
      split; [reflexivity|]. split; [reflexivity|].
      unfold Sdl.on_keydown, Sdl.check_shift in Hr.
      change (Sdl.printable 32) with true in Hr. rewrite Hc in Hr.
      cbv iota zeta in Hr. change (toupper 32 =? 32) with true in Hr.
      cbv iota in Hr.
      destruct (Sdl.shift_held kmod); injection Hr as <-; reflexivity.
    + left.
      destruct ((65 <=? toupper sym) && (toupper sym <=? 90)) eqn:El.
      * apply andb_true_iff in El as [L1 L2]. apply Z.leb_le in L1, L2.
        destruct (on_keydown_ctrl_letter sym kmod Hp Hc) as [Hk Hneg]; [lia|].
        rewrite Hk in Hr. injection Hr as <-. exact Hneg.
      * unfold Sdl.on_keydown in Hr. rewrite Hp, Hc in Hr. cbv zeta in Hr.
        destruct (Z.eqb_spec (toupper sym) 32); [contradiction|].
        rewrite El in Hr. discriminate Hr.
  - left. destruct (on_keydown_plain sym kmod Hp Hs) as [Hk Hneg].
    rewrite Hk in Hr. injection Hr as <-. exact Hneg.
Qed.

Lemma sdl_keydown_sign_witness :
  0x30000 < 0
  \/ (32 = 32 /\ Sdl.ctrl_held 0x41 = true
      /\ 0x30000 = if Sdl.shift_held 0x41 then 0x30000 else 0x40000).
Proof.
  apply (sdl_keydown_sign 32 0x41 0x30000); [lia|reflexivity].
Defined.

(** * Start-up of the SDL backend *)

(** X22: [dpy_start] reaches its end exactly when [SDL_Init] did not fail and
    the window, the renderer and the font were all obtained; it then reports a
    grid of 80 by 25 with the cursor hidden at the origin, a size that later
    [dpy_setcursor] and [dpy_setattr] calls do not change.  In every other
    case the process exits with status 1 after a line on [stderr] that
    starts with "error: could not ". *)
Theorem sdl_start_outcome (e : Sdl.setup) :
  ((exists d, Sdl.dpy_start e = Sdl.Running d)
   <-> 0 <= Sdl.init_rc e /\ Sdl.window_ok e = true
       /\ Sdl.renderer_ok e = true /\ Sdl.font_ok e = true)
  /\ (forall d, Sdl.dpy_start e = Sdl.Running d ->
        Sdl.dpy_getscreensize d = (80, 25)
        /\ (Sdl.cursorx d, Sdl.cursory d, Sdl.cursor_shown d) = (0, 0, false)
        /\ forall x y shown a o,
             Sdl.dpy_getscreensize
               (Sdl.dpy_setattr a o (Sdl.dpy_setcursor x y shown d)) = (80, 25))
  /\ (forall status msg, Sdl.dpy_start e = Sdl.Exited status msg ->
        status = 1 /\ String.prefix "error: could not " msg = true).
Proof.
  unfold Sdl.dpy_start, Sdl.fatal.
  destruct (Z.ltb_spec (Sdl.init_rc e) 0) as [Hi|Hi];
    [|destruct (Sdl.window_ok e);
      [destruct (Sdl.renderer_ok e); [destruct (Sdl.font_ok e)|]|]];
    simpl negb; cbv iota.
  all: split; [split; [intros [d Hd]; try discriminate Hd|intros (H0 & H1 & H2 & H3)]|split].
  all: try lia; try discriminate; try (now eexists); try (repeat split; assumption).
  all: try (intros d [= <-]; repeat split).
  all: try (intros status msg [= <- <-]; split; reflexivity).
  all: try (intros d Hd; discriminate Hd).
  all: try (intros status msg Hd; discriminate Hd).
Qed.
